(** * HPC System Configuration Tool: the wizard state service and its
      derived-value computations

    A shallow embedding of the TypeScript sources

    - [configuration-state.service.ts] (class [ConfigurationStateService]),
    - [step1-system-type.component.ts] (method [calculateTotalRacks]),
    - [step2-power-config.component.ts] (method [calculatePowerConsumption]),

    together with the part of the JavaScript runtime these methods call
    (32-bit integer operators, [Number] arithmetic and printing,
    [JSON.stringify], property reads), followed by the properties of the
    specification stated over that embedding. *)

From Stdlib Require Import ZArith String Ascii List Lia.
From Stdlib Require Import Numbers.DecimalString.
From Stdlib Require Import Floats.PrimFloat Floats.FloatOps Floats.SpecFloat.
From Stdlib Require Import Floats.FloatAxioms.
From stdpp Require Import gmap strings.
Import ListNotations.

Local Open Scope string_scope.
Local Open Scope Z_scope.
#[local] Set Warnings "-inexact-float,-register-all".

(* ===================================================================== *)
(** * The JavaScript runtime used by the sources                          *)
(* ===================================================================== *)

Module JS.

(** ** Exceptions

    The only exception the modelled code can raise is the [TypeError] of
    a property read on [undefined] or [null]. *)

Inductive JSError : Type := TypeError.

Inductive Result (A : Type) : Type :=
| OK (a : A)
| Throw (e : JSError).
Arguments OK {A} a.
Arguments Throw {A} e.

#[global] Instance Result_ret : MRet Result := fun A a => OK a.
#[global] Instance Result_bind : MBind Result := fun A B k r =>
  match r with
  | OK a => k a
  | Throw e => Throw e
  end.

(** ** 32-bit integers

    Integer-valued Numbers are integers of [Z]; the bitwise operators
    first reduce their operands with [ToInt32]. *)

Definition ToInt32 (x : Z) : Z :=
  let m := x mod 2 ^ 32 in
  if 2 ^ 31 <=? m then m - 2 ^ 32 else m.

(** [x << n] *)
Definition Int32_shl (x n : Z) : Z :=
  ToInt32 (Z.shiftl (ToInt32 x) (n mod 32)).

(** [x & y] *)
Definition Int32_and (x y : Z) : Z :=
  ToInt32 (Z.land (ToInt32 x) (ToInt32 y)).

(** [Number.prototype.toString] on an integer below 10^21 in magnitude:
    decimal digits, with a leading minus sign when negative. *)
Definition Z_toString (x : Z) : string :=
  NilZero.string_of_int (Z.to_int x).

(** ** Strings

    A string is its sequence of code units; [charCodeAt] reads one. *)

Definition charCode (c : ascii) : Z := Z.of_nat (nat_of_ascii c).

Definition charCodes (s : string) : list Z :=
  map charCode (list_ascii_of_string s).

Fixpoint join (sep : string) (l : list string) : string :=
  match l with
  | [] => ""
  | [s] => s
  | s :: l' => s ++ sep ++ join sep l'
  end.

Fixpoint zeros (n : nat) : string :=
  match n with
  | O => ""
  | S n' => String "0" (zeros n')
  end.

(** ** Numbers

    A Number that need not be an integer is an IEEE 754 binary64 value. *)

Abbreviation number := float.

(** The Number value of an integer (round to nearest, ties to even). *)
Definition Z_to_float (n : Z) : number :=
  SF2Prim (binary_normalize prec emax n 0 false).

(** [ToBoolean] on a Number: [+0], [-0] and [NaN] are falsy. *)
Definition Number_truthy (x : number) : bool :=
  negb (PrimFloat.is_zero x || PrimFloat.is_nan x).

(** [Math.round]: the closest integer, a tie going towards +infinity;
    values in [[-0.5, 0)] give [-0]. *)
Definition Math_round (x : number) : number :=
  match Prim2SF x with
  | S754_finite s m e =>
      if 0 <=? e then x
      else
        let v := if s then Z.neg m else Z.pos m in
        let n := (2 * v + 2 ^ (- e)) / 2 ^ (1 - e) in
        if n =? 0 then (if s then PrimFloat.neg_zero else PrimFloat.zero)
        else Z_to_float n
  | _ => x
  end.

(** [Math.ceil]: the least integer not below [x]; values in [(-1, 0)]
    give [-0]. *)
Definition Math_ceil (x : number) : number :=
  match Prim2SF x with
  | S754_finite s m e =>
      if 0 <=? e then x
      else
        let v := if s then Z.neg m else Z.pos m in
        let n := - ((- v) / 2 ^ (- e)) in
        if n =? 0 then PrimFloat.neg_zero else Z_to_float n
  | _ => x
  end.

(** *** [Number::toString]

    For a positive finite [x = m * 2^e] the digits are those of the
    integer [s] with the fewest digits such that [s * 10^t] still rounds
    to [x]; among several such [s] the one closest to [x]. *)

Definition ceil_div (a b : Z) : Z := - ((- a) / b).

(** The candidate [s] at decimal exponent [t], if there is one. All
    quantities are in units of [2^(e-2)]: the value is [4m], and the
    interval of the reals that round to it is [[LO, HI]], closed exactly
    when [m] is even. *)
Definition digits_at (m : positive) (e t : Z) : option Z :=
  let V := 4 * Z.pos m in
  let LO := if (Z.pos m =? 2 ^ 52) && (-1074 <? e) then V - 1 else V - 2 in
  let HI := V + 2 in
  let A := (if 0 <=? t then 10 ^ t else 1) * (if e <=? 2 then 2 ^ (2 - e) else 1) in
  let B := (if t <? 0 then 10 ^ (- t) else 1) * (if 2 <? e then 2 ^ (e - 2) else 1) in
  let closed := Z.even (Z.pos m) in
  let s_lo := Z.max 1 (if closed then ceil_div (LO * B) A else (LO * B) / A + 1) in
  let s_hi := if closed then (HI * B) / A else ceil_div (HI * B) A - 1 in
  if s_hi <? s_lo then None
  else
    let q := (V * B) / A in
    let r := (V * B) mod A in
    let c := if 2 * r <? A then q
             else if A <? 2 * r then q + 1
             else if Z.even q then q else q + 1 in
    Some (Z.min s_hi (Z.max s_lo c)).

(** The largest decimal exponent that has a candidate, searched downwards
    from [t]. *)
Fixpoint shortest (fuel : nat) (m : positive) (e t : Z) : Z * Z :=
  match fuel with
  | O => (Z.pos m, e)
  | S fuel' =>
      match digits_at m e t with
      | Some s => (s, t)
      | None => shortest fuel' m e (t - 1)
      end
  end.

Definition Number_toString_pos (m : positive) (e : Z) : string :=
  let hi := if 0 <=? e then Z.pos m * 2 ^ e + 1 else Z.pos m / 2 ^ (- e) + 1 in
  let t0 := (Z.log2 hi + 1) * 30103 / 100000 + 1 in
  let '(s, t) := shortest 800 m e t0 in
  let ds := Z_toString s in
  let k := Z.of_nat (String.length ds) in
  let n := t + k in
  if (k <=? n) && (n <=? 21) then ds ++ zeros (Z.to_nat (n - k))
  else if (0 <? n) && (n <=? 21) then
    substring 0 (Z.to_nat n) ds ++ "." ++ substring (Z.to_nat n) (Z.to_nat (k - n)) ds
  else if (-6 <? n) && (n <=? 0) then "0." ++ zeros (Z.to_nat (- n)) ++ ds
  else
    let x := n - 1 in
    let sg := if x <? 0 then "-" else "+" in
    if k =? 1 then ds ++ "e" ++ sg ++ Z_toString (Z.abs x)
    else substring 0 1 ds ++ "." ++ substring 1 (Z.to_nat (k - 1)) ds
         ++ "e" ++ sg ++ Z_toString (Z.abs x).

Definition Number_toString (x : number) : string :=
  match Prim2SF x with
  | S754_nan => "NaN"
  | S754_zero _ => "0"
  | S754_infinity s => if s then "-Infinity" else "Infinity"
  | S754_finite s m e => (if s then "-" else "") ++ Number_toString_pos m e
  end.

(** ** Values

    The data the wizard handles is JSON-like: it is read from JSON
    catalogs and from the JSON snapshot, and never holds a function or a
    cycle. An object is the list of its own properties in enumeration
    order. *)

Inductive JSValue : Type :=
| JUndefined
| JNull
| JBool (b : bool)
| JNum (x : number)
| JStr (s : string)
| JArr (elems : list JSValue)
| JObj (props : list (string * JSValue)).

Definition is_nullish (v : JSValue) : bool :=
  match v with
  | JUndefined | JNull => true
  | _ => false
  end.

(** [ToBoolean] *)
Definition ToBoolean (v : JSValue) : bool :=
  match v with
  | JUndefined | JNull => false
  | JBool b => b
  | JNum x => Number_truthy x
  | JStr s => negb (String.eqb s "")
  | JArr _ | JObj _ => true
  end.

(** [a || b] *)
Definition or_else (a b : JSValue) : JSValue :=
  if ToBoolean a then a else b.

Fixpoint assoc (k : string) (ps : list (string * JSValue)) : JSValue :=
  match ps with
  | [] => JUndefined
  | (k', v) :: ps' => if String.eqb k k' then v else assoc k ps'
  end.

(** The property [k] of a value that is neither [undefined] nor [null].
    The sources read data properties only ([name], [id], the fields of
    the step payloads), which no primitive, array or prototype has. *)
Definition prop (v : JSValue) (k : string) : JSValue :=
  match v with
  | JObj ps => assoc k ps
  | _ => JUndefined
  end.

(** [v.k] raises on [undefined] and [null]; [v?.k] yields [undefined]
    there. *)
Definition Get (v : JSValue) (k : string) : Result JSValue :=
  if is_nullish v then Throw TypeError else OK (prop v k).

Definition OptGet (v : JSValue) (k : string) : JSValue :=
  if is_nullish v then JUndefined else prop v k.

(** [ToString], which is also how a value becomes a property key. *)
Fixpoint ToString (v : JSValue) : string :=
  match v with
  | JUndefined => "undefined"
  | JNull => "null"
  | JBool b => if b then "true" else "false"
  | JNum x => Number_toString x
  | JStr s => s
  | JArr l =>
      join "," (map (fun e => if is_nullish e then "" else ToString e) l)
  | JObj _ => "[object Object]"
  end.

(** ** [JSON.stringify] *)

Definition hex_digit (n : nat) : ascii :=
  match String.get n "0123456789abcdef" with
  | Some c => c
  | None => "0"%char
  end.

Definition quote_char (c : ascii) : string :=
  let n := nat_of_ascii c in
  if Nat.eqb n 8 then "\b"
  else if Nat.eqb n 9 then "\t"
  else if Nat.eqb n 10 then "\n"
  else if Nat.eqb n 12 then "\f"
  else if Nat.eqb n 13 then "\r"
  else if Nat.eqb n 34 then String "092" (String "034" "")
  else if Nat.eqb n 92 then String "092" (String "092" "")
  else if Nat.ltb n 32 then
    "\u00" ++ String (hex_digit (Nat.div n 16)) (String (hex_digit (Nat.modulo n 16)) "")
  else String c "".

Fixpoint quote_chars (s : string) : string :=
  match s with
  | EmptyString => ""
  | String c s' => quote_char c ++ quote_chars s'
  end.

Definition QuoteJSONString (s : string) : string :=
  String "034" (quote_chars s ++ String "034" "").

(** [None] stands for the [undefined] result: such a property is left
    out of an object and written [null] in an array. A Number that is
    not finite is written [null]. *)
Fixpoint SerializeJSONProperty (v : JSValue) : option string :=
  match v with
  | JUndefined => None
  | JNull => Some "null"
  | JBool b => Some (if b then "true" else "false")
  | JNum x => Some (if PrimFloat.is_finite x then Number_toString x else "null")
  | JStr s => Some (QuoteJSONString s)
  | JArr l =>
      Some ("[" ++ join "," (map (fun e => default "null" (SerializeJSONProperty e)) l) ++ "]")
  | JObj ps =>
      let fix members (ps : list (string * JSValue)) : list string :=
        match ps with
        | [] => []
        | (k, e) :: ps' =>
            match SerializeJSONProperty e with
            | Some str => (QuoteJSONString k ++ ":" ++ str) :: members ps'
            | None => members ps'
            end
        end in
      Some ("{" ++ join "," (members ps) ++ "}")
  end.

(** [JSON.stringify(v)]. The sources only pass object literals, for
    which the result is a string; for [undefined] the runtime returns
    [undefined], written here as it converts to a string. *)
Definition JSON_stringify (v : JSValue) : string :=
  default "undefined" (SerializeJSONProperty v).

(** ** Dates

    A time value is a count of milliseconds since the epoch, which is
    what [new Date()] reads from the clock. *)

Definition msPerDay : Z := 86400000.

(** Year, month (from 1) and day of the month of a day number, in the
    proleptic Gregorian calendar. *)
Definition civil_from_days (day : Z) : Z * Z * Z :=
  let z := day + 719468 in
  let era := z / 146097 in
  let doe := z mod 146097 in
  let yoe := (doe - doe / 1460 + doe / 36524 - doe / 146096) / 365 in
  let doy := doe - (365 * yoe + yoe / 4 - yoe / 100) in
  let mp := (5 * doy + 2) / 153 in
  let d := doy - (153 * mp + 2) / 5 + 1 in
  let m := if mp <? 10 then mp + 3 else mp - 9 in
  let y := yoe + era * 400 + (if m <=? 2 then 1 else 0) in
  (y, m, d).

Definition YearFromTime (t : Z) : Z :=
  fst (fst (civil_from_days (t / msPerDay))).

Definition digit (n : Z) : ascii := ascii_of_nat (48 + Z.to_nat (n mod 10)).

(** The last [width] decimal digits of [n], zero-padded. *)
Fixpoint padded (width : nat) (n : Z) : string :=
  match width with
  | O => ""
  | S w => padded w (n / 10) ++ String (digit n) ""
  end.

(** Four digits for the years 0 to 9999, a sign and six digits beyond. *)
Definition year_string (y : Z) : string :=
  if (0 <=? y) && (y <=? 9999) then padded 4 y
  else (if y <? 0 then "-" else "+") ++ padded 6 (Z.abs y).

(** [Date.prototype.toISOString], for a time value in the range of
    [Date] (which the clock's always is). *)
Definition Date_toISOString (t : Z) : string :=
  let ms := t mod msPerDay in
  let '(y, m, d) := civil_from_days (t / msPerDay) in
  year_string y ++ "-" ++ padded 2 m ++ "-" ++ padded 2 d
  ++ "T" ++ padded 2 (ms / 3600000) ++ ":" ++ padded 2 (ms / 60000 mod 60)
  ++ ":" ++ padded 2 (ms / 1000 mod 60) ++ "." ++ padded 3 (ms mod 1000) ++ "Z".

(** ** Objects used as maps

    The catalogs are objects that came out of [JSON.parse] and are read
    as [table[key]] with a key chosen at run time. Such an object has its
    own properties, here a [gmap], and inherits from [Object.prototype]:
    a key that is not an own property but names a member of
    [Object.prototype] finds that member, and only any other key finds
    [undefined]. *)

(** The properties of [Object.prototype] (ECMAScript, Annex B
    included). *)
Definition ObjectPrototype_members : list string :=
  [ "constructor"; "__defineGetter__"; "__defineSetter__"; "hasOwnProperty";
    "__lookupGetter__"; "__lookupSetter__"; "isPrototypeOf";
    "propertyIsEnumerable"; "toString"; "valueOf"; "__proto__";
    "toLocaleString" ].

Definition inherited (key : string) : bool :=
  existsb (String.eqb key) ObjectPrototype_members.

(** What [table[key]] finds. *)
Inductive Property (A : Type) : Type :=
  | Own (a : A)
  | Inherited (name : string)
  | Absent.
Arguments Own {A} a.
Arguments Inherited {A} name.
Arguments Absent {A}.

Definition GetFrom {A : Type} (table : gmap string A) (key : string) : Property A :=
  match table !! key with
  | Some a => Own a
  | None => if inherited key then Inherited key else Absent
  end.

(** [table[key] || fallback] for a table of Numbers, as a factor of a
    product, which is the only use the sources make of it. A member of
    [Object.prototype] is a function, or for [__proto__] the prototype
    itself: an object, hence truthy, whose Number value is [NaN] (its
    primitive value is a string that is no numeral). *)
Definition factor_or (entry : Property number) (fallback : number) : number :=
  match entry with
  | Own x => if Number_truthy x then x else fallback
  | Inherited _ => PrimFloat.nan
  | Absent => fallback
  end.

(** What [table[key] || []] is for a table of arrays: an array of
    options, or the member of [Object.prototype] that the key names. *)
Inductive Options : Type :=
  | Listed (options : list JSValue)
  | Builtin (name : string).

Definition options_or_none (entry : Property (list JSValue)) : Options :=
  match entry with
  | Own options => Listed options
  | Inherited name => Builtin name
  | Absent => Listed []
  end.

(** The built-in objects are the engine's. What reading the property
    [key] of the member [name] of [Object.prototype] gives is therefore a
    parameter of the model: the read may raise (an accessor may be
    poisoned); otherwise, since all that the sources do with such a value
    is [value || fallback] as a factor of a product, the value is given
    as [None] when it is falsy and by its Number value when it is
    truthy. *)
Definition Builtins : Type := string -> string -> Result (option number).

End JS.
Export JS.


(* ===================================================================== *)
(** * configuration-state.service.ts                                      *)
(* ===================================================================== *)

Module Service.

(** [ConfigurationData]. The step payloads are the objects the step
    components hand over, declared as

    - [Step1Data]: systemType, deploymentType, selectedNodes, nodesPerRack,
      totalRacks;
    - [Step2Data]: powerConfiguration, region, calculatedEfficiency,
      estimatedPowerConsumption;
    - [Step3Data]: storageProtocol, storageVendor, supportOption;

    with the selected options typed [any]. They are kept as the values
    they are, an absent optional payload being [undefined]. *)
Record ConfigurationData : Type := {
  step1 : JSValue;
  step2 : JSValue;
  step3 : JSValue;
  currentStep : Z;
  isComplete : bool;
  lastGeneratedHash : option string
}.

(** The service object: the value held by [configurationSubject], and the
    browser's [localStorage], which is [None] where the guard
    [typeof window !== 'undefined' && typeof localStorage !== 'undefined']
    fails (rendering outside a browser). *)
Record ConfigurationStateService : Type := {
  configurationSubject : ConfigurationData;
  localStorage : option (gmap string string)
}.

Definition storageKey : string := "hpc-configuration".

(** The initial value of [configurationSubject]. *)
Definition initialConfiguration : ConfigurationData := {|
  step1 := JUndefined;
  step2 := JUndefined;
  step3 := JUndefined;
  currentStep := 1;
  isComplete := false;
  lastGeneratedHash := None
|}.

(** The configuration object as a value. Its properties are listed in the
    order of the interface declaration; the runtime lists them in
    insertion order, which varies with the history of the object and on
    which no statement below depends. *)
Definition toJS (c : ConfigurationData) : JSValue :=
  JObj [ ("step1", step1 c);
         ("step2", step2 c);
         ("step3", step3 c);
         ("currentStep", JNum (Z_to_float (currentStep c)));
         ("isComplete", JBool (isComplete c));
         ("lastGeneratedHash",
           match lastGeneratedHash c with
           | Some h => JStr h
           | None => JUndefined
           end) ].

Definition getCurrentConfiguration (this : ConfigurationStateService) : ConfigurationData :=
  configurationSubject this.

(** [configurationSubject.next(config)] *)
Definition next (config : ConfigurationData) (this : ConfigurationStateService)
  : ConfigurationStateService :=
  {| configurationSubject := config; localStorage := localStorage this |}.

(** [localStorage.setItem(key, value)], under the browser guard. *)
Definition setItem (key value : string) (this : ConfigurationStateService)
  : ConfigurationStateService :=
  {| configurationSubject := configurationSubject this;
     localStorage :=
       match localStorage this with
       | Some store => Some (<[key := value]> store)
       | None => None
       end |}.

(** [localStorage.getItem(key)]: the stored snapshot, if any. *)
Definition getItem (key : string) (this : ConfigurationStateService) : option string :=
  match localStorage this with
  | Some store => store !! key
  | None => None
  end.

(** Private method to update and save. *)
Definition updateConfiguration (config : ConfigurationData)
    (this : ConfigurationStateService) : ConfigurationStateService :=
  setItem storageKey (JSON_stringify (toJS config)) (next config this).

Definition updateStep1 (data : JSValue) (this : ConfigurationStateService)
  : ConfigurationStateService :=
  let current := getCurrentConfiguration this in
  let updated := {|
    step1 := data;
    step2 := step2 current;
    step3 := step3 current;
    currentStep := Z.max (currentStep current) 2;
    isComplete := false;
    lastGeneratedHash := None
  |} in
  updateConfiguration updated this.

Definition updateStep2 (data : JSValue) (this : ConfigurationStateService)
  : ConfigurationStateService :=
  let current := getCurrentConfiguration this in
  let updated := {|
    step1 := step1 current;
    step2 := data;
    step3 := step3 current;
    currentStep := Z.max (currentStep current) 3;
    isComplete := false;
    lastGeneratedHash := None
  |} in
  updateConfiguration updated this.

Definition updateStep3 (data : JSValue) (this : ConfigurationStateService)
  : ConfigurationStateService :=
  let current := getCurrentConfiguration this in
  let updated := {|
    step1 := step1 current;
    step2 := step2 current;
    step3 := data;
    currentStep := Z.max (currentStep current) 4;
    isComplete := false;
    lastGeneratedHash := None
  |} in
  updateConfiguration updated this.

Definition completeConfiguration (this : ConfigurationStateService)
  : ConfigurationStateService :=
  let current := getCurrentConfiguration this in
  let updated := {|
    step1 := step1 current;
    step2 := step2 current;
    step3 := step3 current;
    currentStep := currentStep current;
    isComplete := true;
    lastGeneratedHash := lastGeneratedHash current
  |} in
  updateConfiguration updated this.

Definition navigateToStep (step : Z) (this : ConfigurationStateService)
  : ConfigurationStateService :=
  let current := getCurrentConfiguration this in
  if step <=? currentStep current then
    let updated := {|
      step1 := step1 current;
      step2 := step2 current;
      step3 := step3 current;
      currentStep := step;
      isComplete := isComplete current;
      lastGeneratedHash := lastGeneratedHash current
    |} in
    next updated this
  else this.

Definition isStepAccessible (step : Z) (this : ConfigurationStateService) : bool :=
  step <=? currentStep (getCurrentConfiguration this).

Definition resetConfiguration (this : ConfigurationStateService)
  : ConfigurationStateService :=
  let fresh := {|
    step1 := JUndefined;
    step2 := JUndefined;
    step3 := JUndefined;
    currentStep := 1;
    isComplete := false;
    lastGeneratedHash := None
  |} in
  updateConfiguration fresh this.

(** One turn of the loop of [calculateConfigHash]:
    [hash = ((hash << 5) - hash) + char; hash = hash & hash]. *)
Definition hashStep (hash char : Z) : Z :=
  let hash := (Int32_shl hash 5 - hash) + char in
  Int32_and hash hash.

(** The loop over the code units of [configString], from [hash = 0]. *)
Definition hashString (configString : string) : Z :=
  fold_left hashStep (charCodes configString) 0.

(** The string that is hashed. *)
Definition configString (config : ConfigurationData) : string :=
  JSON_stringify (JObj [ ("step1", step1 config);
                         ("step2", step2 config);
                         ("step3", step3 config) ]).

Definition calculateConfigHash (this : ConfigurationStateService) : string :=
  let config := getCurrentConfiguration this in
  Z_toString (hashString (configString config)).

Definition hasConfigurationChanged (this : ConfigurationStateService) : bool :=
  let currentConfig := getCurrentConfiguration this in
  match lastGeneratedHash currentConfig with
  | None => true
  | Some lastHash =>
      if String.eqb lastHash "" then true
      else
        let currentHash := calculateConfigHash this in
        negb (String.eqb lastHash currentHash)
  end.

Definition markAsGenerated (this : ConfigurationStateService)
  : ConfigurationStateService :=
  let currentConfig := getCurrentConfiguration this in
  let newHash := calculateConfigHash this in
  updateConfiguration {|
    step1 := step1 currentConfig;
    step2 := step2 currentConfig;
    step3 := step3 currentConfig;
    currentStep := currentStep currentConfig;
    isComplete := isComplete currentConfig;
    lastGeneratedHash := Some newHash
  |} this.

(** [FinalConfiguration] and its three sections. A field holds whatever
    the [||] expression that fills it evaluates to. *)
Record SystemSection : Type := {
  type : JSValue;
  deployment : JSValue;
  nodes : JSValue;
  nodesPerRack : JSValue;
  totalRacks : JSValue
}.

Record PowerSection : Type := {
  configuration : JSValue;
  region : JSValue;
  efficiency : JSValue;
  estimatedConsumption : JSValue
}.

Record StorageSection : Type := {
  protocol : JSValue;
  vendor : JSValue;
  support : JSValue
}.

Record FinalConfiguration : Type := {
  system : SystemSection;
  power : PowerSection;
  storage : StorageSection;
  timestamp : string;
  version : string
}.

(** [step?.field?.name || ''] *)
Definition selectedName (step : JSValue) (field : string) : JSValue :=
  or_else (OptGet (OptGet step field) "name") (JStr "").

(** [step?.field || 0] *)
Definition selectedNumber (step : JSValue) (field : string) : JSValue :=
  or_else (OptGet step field) (JNum 0).

(** [now] is the time value [new Date()] reads at the call. *)
Definition getFinalConfiguration (now : Z) (this : ConfigurationStateService)
  : FinalConfiguration :=
  let config := getCurrentConfiguration this in
  {| system := {|
       type := selectedName (step1 config) "systemType";
       deployment := selectedName (step1 config) "deploymentType";
       nodes := selectedNumber (step1 config) "selectedNodes";
       nodesPerRack := selectedNumber (step1 config) "nodesPerRack";
       totalRacks := selectedNumber (step1 config) "totalRacks"
     |};
     power := {|
       configuration := selectedName (step2 config) "powerConfiguration";
       region := selectedName (step2 config) "region";
       efficiency := selectedNumber (step2 config) "calculatedEfficiency";
       estimatedConsumption := selectedNumber (step2 config) "estimatedPowerConsumption"
     |};
     storage := {|
       protocol := selectedName (step3 config) "storageProtocol";
       vendor := selectedName (step3 config) "storageVendor";
       support := selectedName (step3 config) "supportOption"
     |};
     timestamp := Date_toISOString now;
     version := "1.0" |}.

(** The operations that change the state, for runs of several calls. *)
Inductive Operation : Type :=
| UpdateStep1 (data : JSValue)
| UpdateStep2 (data : JSValue)
| UpdateStep3 (data : JSValue)
| NavigateToStep (step : Z)
| CompleteConfiguration
| MarkAsGenerated
| ResetConfiguration.

Definition perform (op : Operation) (this : ConfigurationStateService)
  : ConfigurationStateService :=
  match op with
  | UpdateStep1 data => updateStep1 data this
  | UpdateStep2 data => updateStep2 data this
  | UpdateStep3 data => updateStep3 data this
  | NavigateToStep step => navigateToStep step this
  | CompleteConfiguration => completeConfiguration this
  | MarkAsGenerated => markAsGenerated this
  | ResetConfiguration => resetConfiguration this
  end.

Definition run (ops : list Operation) (this : ConfigurationStateService)
  : ConfigurationStateService :=
  fold_left (fun s op => perform op s) ops this.

Definition isReset (op : Operation) : bool :=
  match op with
  | ResetConfiguration => true
  | _ => false
  end.

Definition isNavigation (op : Operation) : bool :=
  match op with
  | NavigateToStep _ => true
  | _ => false
  end.

End Service.

(* ===================================================================== *)
(** * step1-system-type.component.ts                                     *)
(* ===================================================================== *)

Module Step1.

(** The form state of [Step1SystemTypeComponent]. The two counts are
    [number | null]: they are set by [+target.value]. *)
Record Step1SystemTypeComponent : Type := {
  selectedSystemType : JSValue;
  selectedDeploymentType : JSValue;
  selectedNodes : option number;
  selectedNodesPerRack : option number
}.

(** [ToBoolean] on [number | null]. *)
Definition truthy (n : option number) : bool :=
  match n with
  | Some x => Number_truthy x
  | None => false
  end.

(** [number | null] as a value. *)
Definition to_value (n : option number) : JSValue :=
  match n with
  | Some x => JNum x
  | None => JNull
  end.

Definition isFormValid (this : Step1SystemTypeComponent) : bool :=
  ToBoolean (selectedSystemType this)
  && ToBoolean (selectedDeploymentType this)
  && truthy (selectedNodes this)
  && truthy (selectedNodesPerRack this).

(** The quotient is the Number quotient, rounded as every Number
    operation is, and [Math.ceil] is applied to the rounded quotient. *)
Definition calculateTotalRacks (this : Step1SystemTypeComponent) : number :=
  match selectedNodes this, selectedNodesPerRack this with
  | Some nodes, Some nodesPerRack =>
      if Number_truthy nodes && Number_truthy nodesPerRack then
        Math_ceil (nodes / nodesPerRack)
      else 0%float
  | _, _ => 0%float
  end.

Definition onNext (this : Step1SystemTypeComponent)
    (configService : Service.ConfigurationStateService)
  : Service.ConfigurationStateService :=
  if isFormValid this then
    let step1Data := JObj [
      ("systemType", selectedSystemType this);
      ("deploymentType", selectedDeploymentType this);
      ("selectedNodes", to_value (selectedNodes this));
      ("nodesPerRack", to_value (selectedNodesPerRack this));
      ("totalRacks", JNum (calculateTotalRacks this)) ] in
    Service.navigateToStep 2 (Service.updateStep1 step1Data configService)
  else configService.

End Step1.

(* ===================================================================== *)
(** * step2-power-config.component.ts                                    *)
(* ===================================================================== *)

Module Step2.

(** Of [PowerConfiguration] and [Region], the fields the computation
    reads. *)
Record PowerConfiguration : Type := {
  id : string;
  efficiency : number
}.

Record Region : Type := {
  powerMultiplier : number
}.

(** [PowerCalculation]: both tables are objects used as maps from a
    string key; each [gmap] holds the own properties of its object, and
    the tables are read with [GetFrom]. *)
Record PowerCalculation : Type := {
  baseConsumption : gmap string (gmap string number);
  efficiencyMultipliers : gmap string number
}.

Record Step2Config : Type := {
  powerCalculation : PowerCalculation
}.

Record Step2PowerConfigComponent : Type := {
  config : option Step2Config;
  selectedPowerConfiguration : option PowerConfiguration;
  selectedRegion : option Region;
  showSummary : bool;
  calculatedEfficiency : number;
  estimatedPowerConsumption : number
}.

(** A method of the component: it may assign fields of [this] and may
    raise; what was assigned before a raise stays assigned. *)
Definition Method (A : Type) : Type :=
  Step2PowerConfigComponent -> Result A * Step2PowerConfigComponent.

#[global] Instance Method_ret : MRet Method := fun A a this => (OK a, this).
#[global] Instance Method_bind : MBind Method := fun A B k m this =>
  match m this with
  | (OK a, this') => k a this'
  | (Throw e, this') => (Throw e, this')
  end.

Definition getThis : Method Step2PowerConfigComponent :=
  fun this => (OK this, this).

Definition lift {A : Type} (r : Result A) : Method A :=
  fun this => (r, this).

Definition set_showSummary (b : bool) : Method unit := fun this =>
  (OK tt,
   {| config := config this;
      selectedPowerConfiguration := selectedPowerConfiguration this;
      selectedRegion := selectedRegion this;
      showSummary := b;
      calculatedEfficiency := calculatedEfficiency this;
      estimatedPowerConsumption := estimatedPowerConsumption this |}).

Definition set_calculatedEfficiency (x : number) : Method unit := fun this =>
  (OK tt,
   {| config := config this;
      selectedPowerConfiguration := selectedPowerConfiguration this;
      selectedRegion := selectedRegion this;
      showSummary := showSummary this;
      calculatedEfficiency := x;
      estimatedPowerConsumption := estimatedPowerConsumption this |}).

Definition set_estimatedPowerConsumption (x : number) : Method unit := fun this =>
  (OK tt,
   {| config := config this;
      selectedPowerConfiguration := selectedPowerConfiguration this;
      selectedRegion := selectedRegion this;
      showSummary := showSummary this;
      calculatedEfficiency := calculatedEfficiency this;
      estimatedPowerConsumption := x |}).

(** [v.toString()] *)
Definition toString (v : JSValue) : Result string :=
  if is_nullish v then Throw TypeError else OK (ToString v).

(** [baseConsumption[nodeCount] || fallback], where [baseConsumption] is
    itself what a lookup found: a sub-table of the catalog, a member of
    [Object.prototype] (whose properties are the engine's), or
    [undefined], on which the read raises. *)
Definition index_or (builtins : Builtins)
    (baseConsumption : Property (gmap string number)) (nodeCount : string)
    (fallback : number) : Result number :=
  match baseConsumption with
  | Own table => OK (factor_or (GetFrom table nodeCount) fallback)
  | Inherited member =>
      entry ← builtins member nodeCount;
      mret (default fallback entry)
  | Absent => Throw TypeError
  end.

Definition calculatePowerConsumption (builtins : Builtins)
    (configService : Service.ConfigurationStateService) : Method unit :=
  this ← getThis;
  match selectedPowerConfiguration this, selectedRegion this, config this with
  | Some powerConfig, Some region, Some cfg =>
      let step1Data := Service.step1 (Service.getCurrentConfiguration configService) in
      if negb (ToBoolean step1Data) then mret tt
      else
        set_calculatedEfficiency (efficiency powerConfig);;
        deploymentTypeObject ← lift (Get step1Data "deploymentType");
        deploymentType ← lift (Get deploymentTypeObject "id");
        selectedNodes ← lift (Get step1Data "selectedNodes");
        nodeCount ← lift (toString selectedNodes);
        let baseConsumption :=
          GetFrom (baseConsumption (powerCalculation cfg)) (ToString deploymentType) in
        basePower ← lift (index_or builtins baseConsumption nodeCount 1000%float);
        let efficiencyMultiplier :=
          factor_or (GetFrom (efficiencyMultipliers (powerCalculation cfg))
                             (id powerConfig))
                    1%float in
        let regionalMultiplier := powerMultiplier region in
        set_estimatedPowerConsumption
          (Math_round (basePower * efficiencyMultiplier * regionalMultiplier * 10)
           / 10)%float
  | _, _, _ => mret tt
  end.

Definition updateSummary (builtins : Builtins)
    (configService : Service.ConfigurationStateService) : Method unit :=
  this ← getThis;
  match selectedPowerConfiguration this, selectedRegion this with
  | Some _, Some _ =>
      set_showSummary true;;
      calculatePowerConsumption builtins configService
  | _, _ => set_showSummary false
  end.

Definition onPrevious (configService : Service.ConfigurationStateService)
  : Service.ConfigurationStateService :=
  Service.navigateToStep 1 configService.

End Step2.

(* ===================================================================== *)
(** * step1-system-type.component.ts: the selection handlers             *)
(* ===================================================================== *)

Module Step1View.

(** [Step1Config]: the catalog of system types, and the deployment types
    of each system type id (the own properties of an object used as a
    map, read with [GetFrom]). *)
Record Step1Config : Type := {
  systemTypes : list JSValue;
  deploymentTypes : gmap string (list JSValue)
}.

(** The component: its form state, the catalog once loaded, and the
    options on offer. *)
Record Step1SystemTypeView : Type := {
  form : Step1.Step1SystemTypeComponent;
  config : option Step1Config;
  availableDeploymentTypes : Options;
  availableNodeCounts : JSValue;
  availableNodesPerRack : JSValue
}.

(** The field initializers of the class. *)
Definition initialView : Step1SystemTypeView := {|
  form := {| Step1.selectedSystemType := JNull;
             Step1.selectedDeploymentType := JNull;
             Step1.selectedNodes := None;
             Step1.selectedNodesPerRack := None |};
  config := None;
  availableDeploymentTypes := Listed [];
  availableNodeCounts := JArr [];
  availableNodesPerRack := JArr []
|}.



(** [get firstSystemType]: [this.config?.systemTypes?.[0] || null]. *)
Definition firstSystemType (this : Step1SystemTypeView) : JSValue :=
  match config this with
  | Some cfg =>
      match systemTypes cfg with
      | first :: _ => or_else first JNull
      | [] => JNull
      end
  | None => JNull
  end.

Definition getRecommendedNodesPerRack : number := 4%float.

(** [nodesPerRack === this.getRecommendedNodesPerRack()] *)
Definition isRecommended (nodesPerRack : number) : bool :=
  PrimFloat.eqb nodesPerRack getRecommendedNodesPerRack.

Definition isFormValid (this : Step1SystemTypeView) : bool :=
  Step1.isFormValid (form this).

Definition calculateTotalRacks (this : Step1SystemTypeView) : number :=
  Step1.calculateTotalRacks (form this).

Definition onNext (this : Step1SystemTypeView)
    (configService : Service.ConfigurationStateService)
  : Service.ConfigurationStateService :=
  Step1.onNext (form this) configService.

End Step1View.

(* ===================================================================== *)
(** * step3-storage-config.component.ts                                  *)
(* ===================================================================== *)

Module Step3.

(** [Step3Config]: [storageVendors] and [performanceRatings] are objects
    used as maps; each [gmap] holds the own properties. *)
Record Step3Config : Type := {
  storageNetworkProtocols : list JSValue;
  storageVendors : gmap string (list JSValue);
  supportOptions : list JSValue;
  performanceRatings : gmap string JSValue
}.

Record Step3StorageConfigComponent : Type := {
  config : option Step3Config;
  selectedStorageProtocol : JSValue;
  selectedStorageVendor : JSValue;
  selectedSupportOption : JSValue;
  availableVendors : Options;
  showSummary : bool
}.

(** The field initializers of the class. *)
Definition initialComponent : Step3StorageConfigComponent := {|
  config := None;
  selectedStorageProtocol := JNull;
  selectedStorageVendor := JNull;
  selectedSupportOption := JNull;
  availableVendors := Listed [];
  showSummary := false
|}.

Definition updateAvailableVendors (this : Step3StorageConfigComponent)
  : Step3StorageConfigComponent :=
  match config this with
  | Some cfg =>
      if ToBoolean (selectedStorageProtocol this) then
        {| config := config this;
           selectedStorageProtocol := selectedStorageProtocol this;
           selectedStorageVendor := selectedStorageVendor this;
           selectedSupportOption := selectedSupportOption this;
           availableVendors :=
             options_or_none
               (GetFrom (storageVendors cfg)
                        (ToString (prop (selectedStorageProtocol this) "id")));
           showSummary := showSummary this |}
      else this
  | None => this
  end.

Definition isFormValid (this : Step3StorageConfigComponent) : bool :=
  ToBoolean (selectedStorageProtocol this)
  && ToBoolean (selectedStorageVendor this)
  && ToBoolean (selectedSupportOption this).

Definition updateSummary (this : Step3StorageConfigComponent)
  : Step3StorageConfigComponent :=
  {| config := config this;
     selectedStorageProtocol := selectedStorageProtocol this;
     selectedStorageVendor := selectedStorageVendor this;
     selectedSupportOption := selectedSupportOption this;
     availableVendors := availableVendors this;
     showSummary :=
       ToBoolean (selectedStorageProtocol this)
       && ToBoolean (selectedStorageVendor this)
       && ToBoolean (selectedSupportOption this) |}.

Definition onStorageProtocolSelect (protocol : JSValue)
    (this : Step3StorageConfigComponent) : Step3StorageConfigComponent :=
  let chosen := updateAvailableVendors
    {| config := config this;
       selectedStorageProtocol := protocol;
       selectedStorageVendor := selectedStorageVendor this;
       selectedSupportOption := selectedSupportOption this;
       availableVendors := availableVendors this;
       showSummary := showSummary this |} in
  updateSummary
    {| config := config chosen;
       selectedStorageProtocol := selectedStorageProtocol chosen;
       selectedStorageVendor := JNull;
       selectedSupportOption := selectedSupportOption chosen;
       availableVendors := availableVendors chosen;
       showSummary := showSummary chosen |}.

Definition onStorageVendorSelect (vendor : JSValue)
    (this : Step3StorageConfigComponent) : Step3StorageConfigComponent :=
  updateSummary
    {| config := config this;
       selectedStorageProtocol := selectedStorageProtocol this;
       selectedStorageVendor := vendor;
       selectedSupportOption := selectedSupportOption this;
       availableVendors := availableVendors this;
       showSummary := showSummary this |}.

(** [v === s] for a string [s]. *)
Definition strictly_equals_string (v : JSValue) (s : string) : bool :=
  match v with
  | JStr s' => String.eqb s' s
  | _ => false
  end.

(** [options.find(s => s.id === supportId)]: the first option with that
    id, [undefined] when there is none; the read of [id] raises on an
    option that is [undefined] or [null]. *)
Fixpoint find_by_id (supportId : string) (options : list JSValue) : Result JSValue :=
  match options with
  | [] => OK JUndefined
  | s :: options' =>
      match Get s "id" with
      | Throw e => Throw e
      | OK sid =>
          if strictly_equals_string sid supportId then OK s
          else find_by_id supportId options'
      end
  end.

(** [onSupportOptionSelect], [supportId] being the value of the select
    element. Nothing is assigned when [find] raises. *)
Definition onSupportOptionSelect (supportId : string)
    (this : Step3StorageConfigComponent) : Result Step3StorageConfigComponent :=
  found ← match config this with
          | Some cfg => find_by_id supportId (supportOptions cfg)
          | None => OK JUndefined
          end;
  mret (updateSummary
          {| config := config this;
             selectedStorageProtocol := selectedStorageProtocol this;
             selectedStorageVendor := selectedStorageVendor this;
             selectedSupportOption := or_else found JNull;
             availableVendors := availableVendors this;
             showSummary := showSummary this |}).

Definition loadExistingSelections
    (configService : Service.ConfigurationStateService)
    (this : Step3StorageConfigComponent) : Step3StorageConfigComponent :=
  let currentConfig := Service.getCurrentConfiguration configService in
  if ToBoolean (Service.step3 currentConfig) then
    let restored := {|
      config := config this;
      selectedStorageProtocol := prop (Service.step3 currentConfig) "storageProtocol";
      selectedStorageVendor := prop (Service.step3 currentConfig) "storageVendor";
      selectedSupportOption := prop (Service.step3 currentConfig) "supportOption";
      availableVendors := availableVendors this;
      showSummary := showSummary this |} in
    updateSummary
      (if ToBoolean (selectedStorageProtocol restored)
       then updateAvailableVendors restored
       else restored)
  else this.

Definition onPrevious (configService : Service.ConfigurationStateService)
  : Service.ConfigurationStateService :=
  Service.navigateToStep 2 configService.

Definition onNext (this : Step3StorageConfigComponent)
    (configService : Service.ConfigurationStateService)
  : Service.ConfigurationStateService :=
  if isFormValid this then
    let step3Data := JObj [
      ("storageProtocol", selectedStorageProtocol this);
      ("storageVendor", selectedStorageVendor this);
      ("supportOption", selectedSupportOption this) ] in
    Service.navigateToStep 4 (Service.updateStep3 step3Data configService)
  else configService.

End Step3.

(* ===================================================================== *)
(** * step4-review-generate.component.ts                                 *)
(* ===================================================================== *)

Module Step4.

(** Of the component, the fields that mirror the service; the pricing
    state and the export are left out. *)
Record Step4ReviewGenerateComponent : Type := {
  configuration : option Service.ConfigurationData;
  isGenerating : bool;
  hasConfigChanged : bool
}.

(** The field initializers of the class. *)
Definition initialComponent : Step4ReviewGenerateComponent := {|
  configuration := None;
  isGenerating := false;
  hasConfigChanged := true
|}.

(** [loadConfiguration], without the request for the price. *)
Definition loadConfiguration (configService : Service.ConfigurationStateService)
    (this : Step4ReviewGenerateComponent) : Step4ReviewGenerateComponent :=
  {| configuration := Some (Service.getCurrentConfiguration configService);
     isGenerating := isGenerating this;
     hasConfigChanged := Service.hasConfigurationChanged configService |}.

(** [get isConfigurationComplete] *)
Definition isConfigurationComplete (this : Step4ReviewGenerateComponent) : bool :=
  match configuration this with
  | Some c =>
      ToBoolean (Service.step1 c) && ToBoolean (Service.step2 c)
      && ToBoolean (Service.step3 c)
  | None => false
  end.

(** [onGenerateConfiguration], from the call to its return with nothing
    else happening in between. Whether the save to the backend succeeds
    or fails, the two branches make the same calls: complete, mark as
    generated, reload. *)
Definition onGenerateConfiguration (this : Step4ReviewGenerateComponent)
    (configService : Service.ConfigurationStateService)
  : Step4ReviewGenerateComponent * Service.ConfigurationStateService :=
  if negb (isConfigurationComplete this) then (this, configService)
  else
    let generated :=
      Service.markAsGenerated (Service.completeConfiguration configService) in
    let reloaded := loadConfiguration generated this in
    ({| configuration := configuration reloaded;
        isGenerating := false;
        hasConfigChanged := hasConfigChanged reloaded |},
     generated).

(** [onNewConfiguration], [confirmed] being the answer to the prompt. *)
Definition onNewConfiguration (confirmed : bool)
    (configService : Service.ConfigurationStateService)
  : Service.ConfigurationStateService :=
  if confirmed then
    Service.navigateToStep 1 (Service.resetConfiguration configService)
  else configService.

Definition onPrevious (configService : Service.ConfigurationStateService)
  : Service.ConfigurationStateService :=
  Service.navigateToStep 3 configService.

Definition onEditStep (step : Z) (configService : Service.ConfigurationStateService)
  : Service.ConfigurationStateService :=
  Service.navigateToStep step configService.

End Step4.

(* ===================================================================== *)
(** * app.component.ts                                                   *)
(* ===================================================================== *)

Module App.

Definition isStepAccessible (step : Z)
    (configService : Service.ConfigurationStateService) : bool :=
  Service.isStepAccessible step configService.

Definition onStepClick (step : Z) (configService : Service.ConfigurationStateService)
  : Service.ConfigurationStateService :=
  if Service.isStepAccessible step configService then
    Service.navigateToStep step configService
  else configService.

Definition isStepCompleted (step : Z)
    (configService : Service.ConfigurationStateService) : bool :=
  let config := Service.getCurrentConfiguration configService in
  if step =? 1 then ToBoolean (Service.step1 config)
  else if step =? 2 then ToBoolean (Service.step2 config)
  else if step =? 3 then ToBoolean (Service.step3 config)
  else false.

End App.

(* ===================================================================== *)
(** * Predicates on the state of the service                              *)
(* ===================================================================== *)

Module Invariant.

(** The stored hash, when there is one, is the hash of the payloads as
    they are now. *)
Definition hashIsCurrent (this : Service.ConfigurationStateService) : Prop :=
  match Service.lastGeneratedHash (Service.getCurrentConfiguration this) with
  | Some h => h = Service.calculateConfigHash this
  | None => True
  end.

(** [config] with its [currentStep] replaced. *)
Definition withStep (k : Z) (config : Service.ConfigurationData)
  : Service.ConfigurationData :=
  {| Service.step1 := Service.step1 config;
     Service.step2 := Service.step2 config;
     Service.step3 := Service.step3 config;
     Service.currentStep := k;
     Service.isComplete := Service.isComplete config;
     Service.lastGeneratedHash := Service.lastGeneratedHash config |}.

(** The stored snapshot is the current state but for [currentStep], which
    in the snapshot is not behind the current one. *)
Definition snapshotAhead (this : Service.ConfigurationStateService) : Prop :=
  exists k : Z,
    Service.currentStep (Service.getCurrentConfiguration this) <= k
    /\ Service.getItem Service.storageKey this
       = Some (JSON_stringify
                 (Service.toJS (withStep k (Service.getCurrentConfiguration this)))).

(** A navigation to a step from 1 on; any other operation qualifies. *)
Definition navigatesFromOne (op : Service.Operation) : bool :=
  match op with
  | Service.NavigateToStep step => 1 <=? step
  | _ => true
  end.

(** The payload of step [k] (of step 3 for any other [k]). *)
Definition payload (k : Z) (config : Service.ConfigurationData) : JSValue :=
  if k =? 1 then Service.step1 config
  else if k =? 2 then Service.step2 config
  else Service.step3 config.

(** The operations that assign the payload of step [k]. *)
Definition writes (k : Z) (op : Service.Operation) : bool :=
  match op with
  | Service.UpdateStep1 _ => k =? 1
  | Service.UpdateStep2 _ => k =? 2
  | Service.UpdateStep3 _ => negb (k =? 1) && negb (k =? 2)
  | Service.ResetConfiguration => true
  | _ => false
  end.

(** When [calculatePowerConsumption] gets past its guards and then fails:
    the deployment type or the node count of step 1 is [undefined] or
    [null], or the deployment type id finds nothing in the base table, or
    it finds a member of [Object.prototype] on which the read of the node
    count raises. *)
Definition lookupFails (builtins : Builtins) (step1Data : JSValue)
    (cfg : Step2.Step2Config) : bool :=
  is_nullish (prop step1Data "deploymentType")
  || is_nullish (prop step1Data "selectedNodes")
  || match GetFrom (Step2.baseConsumption (Step2.powerCalculation cfg))
                   (ToString (prop (prop step1Data "deploymentType") "id")) with
     | Own _ => false
     | Inherited member =>
         match builtins member (ToString (prop step1Data "selectedNodes")) with
         | OK _ => false
         | Throw _ => true
         end
     | Absent => true
     end.

End Invariant.

(* ===================================================================== *)
(** * Reference definitions, in the words of the specification            *)
(* ===================================================================== *)

Module Spec.

(** The 32-bit rolling hash of section 4.2: [h = 0], and for each
    character [c], [h = (h * 31 + code c)] reduced to 32 bits, sign
    preserved. *)
Definition rollingHash (codes : list Z) : Z :=
  fold_left (fun h c => ToInt32 (h * 31 + c)) codes 0.

(** The value an option projects to in the exported configuration: the
    value read along the optional chain when it is truthy, the empty
    default otherwise. *)
Definition projected (read fallback : JSValue) : JSValue :=
  if ToBoolean read then read else fallback.

(** A name is missing when the step, the selected option or the option's
    name is [undefined] or [null]. *)
Definition nameMissing (step : JSValue) (field : string) : bool :=
  is_nullish step
  || is_nullish (prop step field)
  || is_nullish (prop (prop step field) "name").

(** A number is missing when the step or its field is [undefined] or
    [null]. *)
Definition numberMissing (step : JSValue) (field : string) : bool :=
  is_nullish step || is_nullish (prop step field).

(** [out] is the projection of the name of the option selected in
    [step.field]: the empty string when the name is missing, and otherwise
    the name (the empty string again should the name be falsy). *)
Definition projectsName (out step : JSValue) (field : string) : Prop :=
  (nameMissing step field = true -> out = JStr "")
  /\ (nameMissing step field = false ->
      out = projected (prop (prop step field) "name") (JStr "")).

(** [out] is the projection of the number [step.field]: zero when it is
    missing, and otherwise the number (zero again should it be falsy). *)
Definition projectsNumber (out step : JSValue) (field : string) : Prop :=
  (numberMissing step field = true -> out = JNum 0)
  /\ (numberMissing step field = false ->
      out = projected (prop step field) (JNum 0)).

Definition is_digit (c : ascii) : bool :=
  (Nat.leb 48 (nat_of_ascii c)) && (Nat.leb (nat_of_ascii c) 57).

(** [s] is spelt as [pattern], a [0] of the pattern standing for any
    decimal digit. *)
Fixpoint spelt (pattern s : string) : bool :=
  match pattern, s with
  | EmptyString, EmptyString => true
  | String p pattern', String c s' =>
      (if Ascii.eqb p "0" then is_digit c else Ascii.eqb p c) && spelt pattern' s'
  | _, _ => false
  end.

(** The ISO 8601 extended format of a date and time in UTC, to the
    millisecond. *)
(** The first character of a decimal numeral, of [NaN] or of
    [Infinity]. *)
Definition starts_like_a_number (s : string) : bool :=
  match s with
  | String c _ =>
      is_digit c || Ascii.eqb c "-" || Ascii.eqb c "N" || Ascii.eqb c "I"
  | EmptyString => false
  end.

Definition isISO8601 (s : string) : bool :=
  spelt "0000-00-00T00:00:00.000Z" s.

End Spec.

(* ===================================================================== *)
(** * Sample data: the scenario of the README                             *)
(* ===================================================================== *)

Module Sample.

(** A service in a browser whose store is still empty. *)
Definition freshService : Service.ConfigurationStateService := {|
  Service.configurationSubject := Service.initialConfiguration;
  Service.localStorage := Some ∅
|}.

(** A service rendered outside a browser: there is no store. *)
Definition serverService : Service.ConfigurationStateService := {|
  Service.configurationSubject := Service.initialConfiguration;
  Service.localStorage := None
|}.

(** A reading of the clock: the first millisecond of 2025. *)
Definition clock : Z := 1735689600000.

(** DataCore X300, MiniCluster, 4 nodes, 4 nodes per rack. *)
Definition step1Form : Step1.Step1SystemTypeComponent := {|
  Step1.selectedSystemType :=
    JObj [("id", JStr "datacore-x300"); ("name", JStr "DataCore X300")];
  Step1.selectedDeploymentType :=
    JObj [("id", JStr "minicluster"); ("name", JStr "MiniCluster")];
  Step1.selectedNodes := Some 4%float;
  Step1.selectedNodesPerRack := Some 4%float
|}.

(** The payload [onNext] builds from that form. *)
Definition step1Data : JSValue :=
  JObj [ ("systemType", JObj [("id", JStr "datacore-x300"); ("name", JStr "DataCore X300")]);
         ("deploymentType", JObj [("id", JStr "minicluster"); ("name", JStr "MiniCluster")]);
         ("selectedNodes", JNum 4);
         ("nodesPerRack", JNum 4);
         ("totalRacks", JNum 1) ].

(** The state after step 1 was filled in and left with [Next]. *)
Definition afterStep1 : Service.ConfigurationStateService :=
  Step1.onNext step1Form freshService.

(** High-Speed Interconnect, WekaIO, 5 Years. *)
Definition step3Data : JSValue :=
  JObj [ ("storageProtocol", JObj [("id", JStr "high-speed"); ("name", JStr "High-Speed Interconnect")]);
         ("storageVendor", JObj [("id", JStr "wekaio"); ("name", JStr "WekaIO")]);
         ("supportOption", JObj [("id", JStr "5-years"); ("name", JStr "5 Years")]) ].

(** A power catalog with a base of 1000 for four MiniCluster nodes and an
    efficiency multiplier of 0.9 for full DC power. *)
Definition miniclusterTable : gmap string number :=
  {[ "4" := 1000%float; "8" := 1900%float ]}.

Definition step2Config : Step2.Step2Config := {|
  Step2.powerCalculation := {|
    Step2.baseConsumption :=
      {[ "minicluster" := miniclusterTable;
         "supercluster" := {[ "64" := 14000%float ]} ]};
    Step2.efficiencyMultipliers := {[ "full-dc" := 0.9%float ]}
  |}
|}.

(** Full DC Power, United States (regional multiplier 1.1). *)
Definition step2Form : Step2.Step2PowerConfigComponent := {|
  Step2.config := Some step2Config;
  Step2.selectedPowerConfiguration :=
    Some {| Step2.id := "full-dc"; Step2.efficiency := 0.95%float |};
  Step2.selectedRegion := Some {| Step2.powerMultiplier := 1.1%float |};
  Step2.showSummary := false;
  Step2.calculatedEfficiency := 0%float;
  Step2.estimatedPowerConsumption := 0%float
|}.

(** An engine on whose built-in objects none of the properties asked
    for exists. *)
Definition noBuiltinProperty : Builtins := fun _ _ => OK None.

(** A step-1 payload whose deployment type the power catalog does not
    list. *)
Definition unlistedDeployment : JSValue :=
  JObj [ ("systemType", JObj [("id", JStr "datacore-x300"); ("name", JStr "DataCore X300")]);
         ("deploymentType", JObj [("id", JStr "hypercluster"); ("name", JStr "HyperCluster")]);
         ("selectedNodes", JNum 4);
         ("nodesPerRack", JNum 4);
         ("totalRacks", JNum 1) ].

End Sample.

(* ===================================================================== *)
(** * More sample data: steps 3 and 4 of the README scenario              *)
(* ===================================================================== *)

Module Sample2.

Definition highSpeed : JSValue :=
  JObj [("id", JStr "high-speed"); ("name", JStr "High-Speed Interconnect")].

Definition ethernet : JSValue :=
  JObj [("id", JStr "ethernet"); ("name", JStr "Ethernet")].

Definition wekaIO : JSValue :=
  JObj [("id", JStr "wekaio"); ("name", JStr "WekaIO")].

Definition fiveYears : JSValue :=
  JObj [("id", JStr "5-years"); ("name", JStr "5 Years")].

Definition threeYears : JSValue :=
  JObj [("id", JStr "3-years"); ("name", JStr "3 Years")].

Definition step3Config : Step3.Step3Config := {|
  Step3.storageNetworkProtocols := [highSpeed; ethernet];
  Step3.storageVendors := {[ "high-speed" := [wekaIO] ]};
  Step3.supportOptions := [threeYears; fiveYears];
  Step3.performanceRatings := ∅
|}.

(** High-Speed Interconnect, WekaIO, 5 Years, all three selected. *)
Definition step3Form : Step3.Step3StorageConfigComponent := {|
  Step3.config := Some step3Config;
  Step3.selectedStorageProtocol := highSpeed;
  Step3.selectedStorageVendor := wekaIO;
  Step3.selectedSupportOption := fiveYears;
  Step3.availableVendors := Listed [wekaIO];
  Step3.showSummary := true
|}.

(** A step-3 component that has just received its catalog. *)
Definition step3Loaded : Step3.Step3StorageConfigComponent := {|
  Step3.config := Some step3Config;
  Step3.selectedStorageProtocol := JNull;
  Step3.selectedStorageVendor := JNull;
  Step3.selectedSupportOption := JNull;
  Step3.availableVendors := Listed [];
  Step3.showSummary := false
|}.

(** The power payload of step 2: Full DC Power, United States. *)
Definition step2Data : JSValue :=
  JObj [ ("powerConfiguration", JObj [("id", JStr "full-dc"); ("name", JStr "Full DC Power")]);
         ("region", JObj [("id", JStr "us"); ("name", JStr "United States")]);
         ("calculatedEfficiency", JNum 0.95);
         ("estimatedPowerConsumption", JNum 990) ].

(** The three steps saved, the wizard on its last page. *)
Definition allSteps : Service.ConfigurationStateService :=
  Step3.onNext step3Form
    (Service.navigateToStep 3 (Service.updateStep2 step2Data Sample.afterStep1)).


(** The step-3 component after the catalog came in and 5 Years was
    picked. *)
Definition step3WithSupport : Step3.Step3StorageConfigComponent := {|
  Step3.config := Some step3Config;
  Step3.selectedStorageProtocol := JNull;
  Step3.selectedStorageVendor := JNull;
  Step3.selectedSupportOption := fiveYears;
  Step3.availableVendors := Listed [];
  Step3.showSummary := false
|}.

(** The review page showing the state with all three steps saved. *)
Definition reviewPage : Step4.Step4ReviewGenerateComponent :=
  Step4.loadConfiguration allSteps Step4.initialComponent.

(** The service with a step-1 payload of an unlisted deployment type. *)
Definition unlistedService : Service.ConfigurationStateService :=
  Service.updateStep1 Sample.unlistedDeployment Sample.freshService.

End Sample2.

(* ===================================================================== *)
(** * Proof steps                                                         *)
(* ===================================================================== *)

(** Every operation but [navigateToStep] is a call of
    [updateConfiguration] on a record built from the current one. *)
Ltac service_unfold :=
  unfold Service.updateStep1, Service.updateStep2, Service.updateStep3,
    Service.completeConfiguration, Service.markAsGenerated,
    Service.resetConfiguration.

(** Closed facts about the sample data are settled by evaluation. *)
Ltac by_evaluation := vm_compute; reflexivity.

(* ===================================================================== *)
(** * Properties                                                          *)
(* ===================================================================== *)

Import Service.

(** ** The runtime model on known results *)

Example Number_toString_known :
  map Number_toString
    [0.1; 0.95; 990; 4; -2.5; 100; 123.456; 0.000001; 1e-7; 1.5e-7; 1e21;
     123456789012345680000; 0.1 + 0.2; 9007199254740992]%float
  = ["0.1"; "0.95"; "990"; "4"; "-2.5"; "100"; "123.456"; "0.000001"; "1e-7";
     "1.5e-7"; "1e+21"; "123456789012345680000"; "0.30000000000000004";
     "9007199254740992"].
Proof. by_evaluation. Qed.

Example Math_round_known :
  map Math_round [0.5; -0.5; 1.5; 2.5; -1.5; -2.5; 0.4; 0.49999999999999994; 9900.000000000002]%float
  = [1; -0; 2; 3; -1; -2; 0; 0; 9900]%float.
Proof. by_evaluation. Qed.

Example Date_toISOString_known :
  map Date_toISOString
    [0; -1; 951782400000; 1709251199000; 1735689600000; 253402300799999;
     253402300800000; 8640000000000000]
  = ["1970-01-01T00:00:00.000Z"; "1969-12-31T23:59:59.999Z";
     "2000-02-29T00:00:00.000Z"; "2024-02-29T23:59:59.000Z";
     "2025-01-01T00:00:00.000Z"; "9999-12-31T23:59:59.999Z";
     "+010000-01-01T00:00:00.000Z"; "+275760-09-13T00:00:00.000Z"].
Proof. by_evaluation. Qed.

(** On an integer, printing the Number and printing the integer agree. *)
Example Number_toString_integers :
  map (fun z => Number_toString (Z_to_float z)) [0; 1; -1; 4; 512; 96354; -1180087966; 2147483647; -2147483648]
  = map Z_toString [0; 1; -1; 4; 512; 96354; -1180087966; 2147483647; -2147483648].
Proof. by_evaluation. Qed.

Example Math_ceil_known :
  map Math_ceil [0.25; 1; 1.25; 2; -0.5; -1.25; 1e300; 0.125]%float
  = [1; 1; 2; 2; -0; -1; 1e300; 1]%float.
Proof. by_evaluation. Qed.

(** [calculateTotalRacks] evaluated on the node counts of the catalogs. *)
Example calculateTotalRacks_known :
  let counts := [1; 2; 3; 4; 5; 6; 7; 8; 12; 16; 24; 32; 48; 64; 96; 128; 256; 512] in
  let pairs := flat_map (fun n => map (fun d => (n, d)) counts) counts in
  map (fun '(n, d) =>
         Step1.calculateTotalRacks
           {| Step1.selectedSystemType := JNull;
              Step1.selectedDeploymentType := JNull;
              Step1.selectedNodes := Some (Z_to_float n);
              Step1.selectedNodesPerRack := Some (Z_to_float d) |}) pairs
  = map (fun '(n, d) => Z_to_float (ceil_div n d)) pairs.
Proof. by_evaluation. Qed.

(** The members of [Object.prototype] are found under any object used as
    a map; other keys are not. *)
Example GetFrom_known :
  map (GetFrom Sample.miniclusterTable) ["4"; "16"; "constructor"; "__proto__"; "toString"]
  = [Own 1000%float; Absent; Inherited "constructor"; Inherited "__proto__";
     Inherited "toString"].
Proof. by_evaluation. Qed.

(** An id that names a member of [Object.prototype] finds that member in
    every table. As the deployment type id it does not make the read of
    the node count raise (here the member has no such property, and the
    base is 1000); as the power configuration id it makes the estimate
    [NaN]. *)
Example calculatePowerConsumption_prototype_members :
  let constructorDeployment :=
    updateStep1 (JObj [ ("deploymentType", JObj [("id", JStr "constructor")]);
                        ("selectedNodes", JNum 4) ]) Sample.freshService in
  let toStringPower := {|
    Step2.config := Some Sample.step2Config;
    Step2.selectedPowerConfiguration :=
      Some {| Step2.id := "toString"; Step2.efficiency := 0.95%float |};
    Step2.selectedRegion := Some {| Step2.powerMultiplier := 1.1%float |};
    Step2.showSummary := false;
    Step2.calculatedEfficiency := 0%float;
    Step2.estimatedPowerConsumption := 0%float |} in
  Step2.calculatePowerConsumption Sample.noBuiltinProperty constructorDeployment
    Sample.step2Form
  = (OK tt,
     {| Step2.config := Some Sample.step2Config;
        Step2.selectedPowerConfiguration :=
          Some {| Step2.id := "full-dc"; Step2.efficiency := 0.95%float |};
        Step2.selectedRegion := Some {| Step2.powerMultiplier := 1.1%float |};
        Step2.showSummary := false;
        Step2.calculatedEfficiency := 0.95%float;
        Step2.estimatedPowerConsumption := 990%float |})
  /\ fst (Step2.calculatePowerConsumption Sample.noBuiltinProperty Sample.afterStep1
            toStringPower) = OK tt
  /\ PrimFloat.is_nan
       (Step2.estimatedPowerConsumption
          (snd (Step2.calculatePowerConsumption Sample.noBuiltinProperty
                  Sample.afterStep1 toStringPower))) = true.
Proof. repeat split; by_evaluation. Qed.

Example ToInt32_known :
  map ToInt32 [0; 2147483647; 2147483648; 4294967295; 4294967296; -2147483649]
  = [0; 2147483647; -2147483648; -1; 0; 2147483647].
Proof. by_evaluation. Qed.

(** [onNext] of step 1 hands over the payload of the sample, saves it and
    moves to step 2. *)
Example onNext_known :
  step1 (getCurrentConfiguration Sample.afterStep1) = Sample.step1Data
  /\ currentStep (getCurrentConfiguration Sample.afterStep1) = 2
  /\ Sample.afterStep1 = navigateToStep 2 (updateStep1 Sample.step1Data Sample.freshService).
Proof. repeat split; by_evaluation. Qed.

(** The hash of the three-character string [abc]:
    [(97 * 31 + 98) * 31 + 99]. *)
Example hashString_known : hashString "abc" = 96354.
Proof. by_evaluation. Qed.

(** ** 32-bit arithmetic *)

Lemma ToInt32_eqm (a b : Z) :
  a mod 2 ^ 32 = b mod 2 ^ 32 -> ToInt32 a = ToInt32 b.
Proof. intros H. unfold ToInt32. now rewrite H. Qed.

Lemma ToInt32_mod (a : Z) : ToInt32 a mod 2 ^ 32 = a mod 2 ^ 32.
Proof.
  unfold ToInt32.
  destruct (Z.leb_spec (2 ^ 31) (a mod 2 ^ 32)).
  - replace (a mod 2 ^ 32 - 2 ^ 32) with (a mod 2 ^ 32 + (-1) * 2 ^ 32) by ring.
    rewrite Z.mod_add by lia. apply Z.mod_mod. lia.
  - apply Z.mod_mod. lia.
Qed.

Lemma ToInt32_idem (a : Z) : ToInt32 (ToInt32 a) = ToInt32 a.
Proof. apply ToInt32_eqm, ToInt32_mod. Qed.

Lemma ToInt32_range (a : Z) : - 2 ^ 31 <= ToInt32 a < 2 ^ 31.
Proof.
  unfold ToInt32.
  pose proof (Z.mod_pos_bound a (2 ^ 32) ltac:(lia)).
  destruct (Z.leb_spec (2 ^ 31) (a mod 2 ^ 32)); lia.
Qed.

Lemma Int32_and_diag (x : Z) : Int32_and x x = ToInt32 x.
Proof. unfold Int32_and. rewrite Z.land_diag. apply ToInt32_idem. Qed.

Lemma Int32_shl_5_mod (h : Z) : Int32_shl h 5 mod 2 ^ 32 = (h * 32) mod 2 ^ 32.
Proof.
  unfold Int32_shl. rewrite ToInt32_mod.
  change (5 mod 32) with 5. rewrite Z.shiftl_mul_pow2 by lia.
  change (2 ^ 5) with 32.
  rewrite Z.mul_mod by lia. rewrite ToInt32_mod.
  rewrite <- Z.mul_mod by lia. reflexivity.
Qed.

(** One turn of the loop is one step of the multiply-by-31 recurrence. *)
Lemma hashStep_rolling (h c : Z) : hashStep h c = ToInt32 (h * 31 + c).
Proof.
  unfold hashStep. rewrite Int32_and_diag. apply ToInt32_eqm.
  rewrite Z.add_mod by lia. rewrite Zminus_mod. rewrite Int32_shl_5_mod.
  rewrite <- Zminus_mod. rewrite <- Z.add_mod by lia.
  f_equal. ring.
Qed.

Lemma hashString_rolling (s : string) :
  hashString s = Spec.rollingHash (charCodes s).
Proof.
  unfold hashString, Spec.rollingHash.
  generalize 0. induction (charCodes s) as [|c codes IH]; intros h; simpl.
  - reflexivity.
  - rewrite hashStep_rolling. apply IH.
Qed.

Lemma rollingHash_range (codes : list Z) :
  - 2 ^ 31 <= Spec.rollingHash codes < 2 ^ 31.
Proof.
  unfold Spec.rollingHash.
  assert (G : forall l h, - 2 ^ 31 <= h < 2 ^ 31 ->
            - 2 ^ 31 <= fold_left (fun h c => ToInt32 (h * 31 + c)) l h < 2 ^ 31).
  { induction l as [|c l IH]; intros h Hh; simpl; [exact Hh|].
    apply IH, ToInt32_range. }
  apply G. lia.
Qed.

(** ** Printing an integer never gives the empty string *)

Lemma Z_toString_nonempty (x : Z) : String.eqb (Z_toString x) "" = false.
Proof.
  unfold Z_toString.
  destruct (Z.to_int x) as [d|d]; [destruct d|]; reflexivity.
Qed.

(** ** The wizard state *)

Lemma getCurrentConfiguration_updateConfiguration config this :
  getCurrentConfiguration (updateConfiguration config this) = config.
Proof. reflexivity. Qed.

(** Change detection reads the three payloads and the stored hash, and
    nothing else. *)
Lemma hasConfigurationChanged_reads (c : ConfigurationData) (this : ConfigurationStateService) :
  step1 (getCurrentConfiguration this) = step1 c ->
  step2 (getCurrentConfiguration this) = step2 c ->
  step3 (getCurrentConfiguration this) = step3 c ->
  lastGeneratedHash (getCurrentConfiguration this) = lastGeneratedHash c ->
  hasConfigurationChanged this =
    match lastGeneratedHash c with
    | None => true
    | Some lastHash =>
        if String.eqb lastHash "" then true
        else negb (String.eqb lastHash (Z_toString (hashString (configString c))))
    end.
Proof.
  intros H1 H2 H3 Hh.
  unfold hasConfigurationChanged, calculateConfigHash, configString.
  rewrite H1, H2, H3, Hh. reflexivity.
Qed.

(** C1. For every state and every payload [d], [updateStepN d] (N = 1, 2,
    3) replaces the payload of step N with [d] and keeps the two others,
    sets [currentStep] to the maximum of its old value and N + 1, sets
    [isComplete] to false and clears [lastGeneratedHash]; and
    [hasConfigurationChanged] called right afterwards returns true. *)
Theorem updateStep_invalidates (this : ConfigurationStateService) (d : JSValue) :
  let old := getCurrentConfiguration this in
  (let new := getCurrentConfiguration (updateStep1 d this) in
   step1 new = d /\ step2 new = step2 old /\ step3 new = step3 old
   /\ currentStep new = Z.max (currentStep old) (1 + 1)
   /\ isComplete new = false /\ lastGeneratedHash new = None
   /\ hasConfigurationChanged (updateStep1 d this) = true)
  /\
  (let new := getCurrentConfiguration (updateStep2 d this) in
   step1 new = step1 old /\ step2 new = d /\ step3 new = step3 old
   /\ currentStep new = Z.max (currentStep old) (2 + 1)
   /\ isComplete new = false /\ lastGeneratedHash new = None
   /\ hasConfigurationChanged (updateStep2 d this) = true)
  /\
  (let new := getCurrentConfiguration (updateStep3 d this) in
   step1 new = step1 old /\ step2 new = step2 old /\ step3 new = d
   /\ currentStep new = Z.max (currentStep old) (3 + 1)
   /\ isComplete new = false /\ lastGeneratedHash new = None
   /\ hasConfigurationChanged (updateStep3 d this) = true).
Proof.
  cbv zeta. service_unfold.
  rewrite !getCurrentConfiguration_updateConfiguration.
  unfold hasConfigurationChanged.
  rewrite !getCurrentConfiguration_updateConfiguration.
  cbn [step1 step2 step3 currentStep isComplete lastGeneratedHash].
  repeat split.
Qed.

(** C2. [markAsGenerated] stores the hash of the current payloads, leaving
    them as they are, and [hasConfigurationChanged] called right after it,
    with no step changed in between, returns false. *)
Theorem markAsGenerated_then_unchanged (this : ConfigurationStateService) :
  let old := getCurrentConfiguration this in
  let new := getCurrentConfiguration (markAsGenerated this) in
  lastGeneratedHash new = Some (calculateConfigHash this)
  /\ step1 new = step1 old /\ step2 new = step2 old /\ step3 new = step3 old
  /\ hasConfigurationChanged (markAsGenerated this) = false.
Proof.
  cbv zeta. unfold markAsGenerated.
  rewrite getCurrentConfiguration_updateConfiguration.
  cbn [step1 step2 step3 lastGeneratedHash].
  repeat split.
  rewrite (hasConfigurationChanged_reads
             {| step1 := step1 (getCurrentConfiguration this);
                step2 := step2 (getCurrentConfiguration this);
                step3 := step3 (getCurrentConfiguration this);
                currentStep := currentStep (getCurrentConfiguration this);
                isComplete := isComplete (getCurrentConfiguration this);
                lastGeneratedHash := Some (calculateConfigHash this) |})
    by reflexivity.
  cbn [lastGeneratedHash].
  unfold calculateConfigHash at 1.
  rewrite Z_toString_nonempty.
  unfold calculateConfigHash, configString. cbn [step1 step2 step3].
  rewrite String.eqb_refl. reflexivity.
Qed.

(** C3. [calculateConfigHash] serializes the object of the three payloads
    and prints the 32-bit rolling hash of the resulting string: the loop's
    [((h << 5) - h) + c] followed by the truncation of [h & h] is
    [h * 31 + c] reduced to a signed 32-bit integer, so the hash stays in
    the signed 32-bit range; and two states whose serialized payloads are
    equal get equal hashes. *)
Theorem calculateConfigHash_rolling (this other : ConfigurationStateService) :
  let config := getCurrentConfiguration this in
  let serialized :=
    JSON_stringify (JObj [("step1", step1 config); ("step2", step2 config);
                          ("step3", step3 config)]) in
  (forall h c, hashStep h c = ToInt32 (h * 31 + c))
  /\ calculateConfigHash this = Z_toString (Spec.rollingHash (charCodes serialized))
  /\ - 2 ^ 31 <= Spec.rollingHash (charCodes serialized) < 2 ^ 31
  /\ (configString config = configString (getCurrentConfiguration other) ->
      calculateConfigHash this = calculateConfigHash other).
Proof.
  cbv zeta. split; [exact hashStep_rolling|]. split; [|split].
  - unfold calculateConfigHash, configString. now rewrite hashString_rolling.
  - apply rollingHash_range.
  - intros H. unfold calculateConfigHash. now rewrite H.
Qed.

(** C6. When [s] is past [currentStep], [navigateToStep s] leaves the
    service as it is: state, [currentStep] and stored snapshot. It is a
    silent no-op. *)
Theorem navigateToStep_ahead_is_noop (this : ConfigurationStateService) (s : Z) :
  currentStep (getCurrentConfiguration this) < s ->
  navigateToStep s this = this
  /\ currentStep (getCurrentConfiguration (navigateToStep s this))
     = currentStep (getCurrentConfiguration this)
  /\ isStepAccessible s this = false.
Proof.
  intros H. unfold navigateToStep, isStepAccessible.
  destruct (Z.leb_spec s (currentStep (getCurrentConfiguration this))) as [Hle|Hgt].
  - lia.
  - repeat split.
Qed.

(** C10. Two states that agree on the three payloads and on the stored
    hash get the same answer from [hasConfigurationChanged], whatever
    their [currentStep] and [isComplete]; so [navigateToStep] and
    [completeConfiguration] never change that answer. *)
Theorem hasConfigurationChanged_ignores_progress
    (a b : ConfigurationStateService) (s : Z) :
  (step1 (getCurrentConfiguration a) = step1 (getCurrentConfiguration b) ->
   step2 (getCurrentConfiguration a) = step2 (getCurrentConfiguration b) ->
   step3 (getCurrentConfiguration a) = step3 (getCurrentConfiguration b) ->
   lastGeneratedHash (getCurrentConfiguration a)
     = lastGeneratedHash (getCurrentConfiguration b) ->
   hasConfigurationChanged a = hasConfigurationChanged b)
  /\ hasConfigurationChanged (navigateToStep s a) = hasConfigurationChanged a
  /\ hasConfigurationChanged (completeConfiguration a) = hasConfigurationChanged a.
Proof.
  assert (G : forall x y,
    step1 (getCurrentConfiguration x) = step1 (getCurrentConfiguration y) ->
    step2 (getCurrentConfiguration x) = step2 (getCurrentConfiguration y) ->
    step3 (getCurrentConfiguration x) = step3 (getCurrentConfiguration y) ->
    lastGeneratedHash (getCurrentConfiguration x)
      = lastGeneratedHash (getCurrentConfiguration y) ->
    hasConfigurationChanged x = hasConfigurationChanged y).
  { intros x y H1 H2 H3 Hh.
    rewrite (hasConfigurationChanged_reads (getCurrentConfiguration y) x H1 H2 H3 Hh).
    symmetry. now apply hasConfigurationChanged_reads. }
  split; [apply G|]. split.
  - unfold navigateToStep.
    destruct (s <=? currentStep (getCurrentConfiguration a)); [|reflexivity].
    apply G; reflexivity.
  - apply G; reflexivity.
Qed.

(** ** Runs of operations and [currentStep] *)

Lemma perform_currentStep_le (op : Operation) (this : ConfigurationStateService) :
  isReset op = false -> isNavigation op = false ->
  currentStep (getCurrentConfiguration this)
    <= currentStep (getCurrentConfiguration (perform op this)).
Proof.
  intros Hr Hn.
  destruct op; try discriminate; cbn [perform]; service_unfold;
    rewrite getCurrentConfiguration_updateConfiguration; cbn [currentStep]; lia.
Qed.

Lemma navigateToStep_currentStep (s : Z) (this : ConfigurationStateService) :
  currentStep (getCurrentConfiguration (navigateToStep s this))
    = if s <=? currentStep (getCurrentConfiguration this) then s
      else currentStep (getCurrentConfiguration this).
Proof.
  unfold navigateToStep.
  destruct (s <=? currentStep (getCurrentConfiguration this)); reflexivity.
Qed.

(** C4, the claim as stated fails: after step 1 was saved ([currentStep]
    is 2), the one-call run [navigateToStep 1], which holds no reset,
    lowers [currentStep] to 1. This is what [onPrevious] of step 2 does. *)
Lemma navigateToStep_lowers_currentStep :
  forallb (fun op => negb (isReset op)) [NavigateToStep 1] = true
  /\ currentStep (getCurrentConfiguration
       (run [UpdateStep1 Sample.step1Data] Sample.freshService)) = 2
  /\ currentStep (getCurrentConfiguration
       (run [NavigateToStep 1]
          (run [UpdateStep1 Sample.step1Data] Sample.freshService))) = 1
  /\ currentStep (getCurrentConfiguration Sample.afterStep1) = 2
  /\ currentStep (getCurrentConfiguration (Step2.onPrevious Sample.afterStep1)) = 1.
Proof. repeat split; by_evaluation. Qed.

(** C4, amended. Along every run of operations other than [reset] and
    [navigateToStep] (so of [updateStep1/2/3], [markAsGenerated] and
    [completeConfiguration]) [currentStep] never decreases. [navigateToStep
    s] never raises it: it sets it to [s] when [s] is at most
    [currentStep], which lowers it, and leaves it alone otherwise. A reset
    sets it to 1. *)
Theorem currentStep_monotone_without_navigation
    (ops : list Operation) (this : ConfigurationStateService) (s : Z) :
  (forallb (fun op => negb (isReset op) && negb (isNavigation op)) ops = true ->
   currentStep (getCurrentConfiguration this)
     <= currentStep (getCurrentConfiguration (run ops this)))
  /\ currentStep (getCurrentConfiguration (navigateToStep s this))
       <= currentStep (getCurrentConfiguration this)
  /\ (s <= currentStep (getCurrentConfiguration this) ->
      currentStep (getCurrentConfiguration (navigateToStep s this)) = s)
  /\ currentStep (getCurrentConfiguration (resetConfiguration this)) = 1.
Proof.
  split; [|split; [|split]].
  - revert this. unfold run.
    induction ops as [|op ops IH]; intros this Hall; simpl in *.
    + lia.
    + apply andb_prop in Hall as [Hop Hall].
      apply andb_prop in Hop as [Hr Hn].
      apply negb_true_iff in Hr, Hn.
      pose proof (perform_currentStep_le op this Hr Hn).
      specialize (IH (perform op this) Hall). lia.
  - rewrite navigateToStep_currentStep.
    destruct (Z.leb_spec s (currentStep (getCurrentConfiguration this))); lia.
  - intros Hle. rewrite navigateToStep_currentStep.
    destruct (Z.leb_spec s (currentStep (getCurrentConfiguration this))); lia.
  - reflexivity.
Qed.

(** ** The stored snapshot *)

Lemma getItem_updateConfiguration (config : ConfigurationData)
    (this : ConfigurationStateService) (store : gmap string string) :
  localStorage this = Some store ->
  getItem storageKey (updateConfiguration config this)
    = Some (JSON_stringify (toJS config)).
Proof.
  intros H. unfold updateConfiguration, setItem, getItem, next.
  cbn [localStorage]. rewrite H. apply lookup_insert_eq.
Qed.

(** C5, the claim as stated fails, in two ways. Outside a browser the
    guard of [updateConfiguration] skips the write, so [updateStep1]
    stores nothing. And in a browser, after step 1 was saved (the store
    holds the snapshot of that state), [navigateToStep 1] changes the
    state ([currentStep] goes from 2 to 1) and writes nothing: the stored
    snapshot is still the old one and differs from the serialization of
    the current state. *)
Lemma snapshot_not_always_current :
  getItem storageKey (updateStep1 Sample.step1Data Sample.serverService) = None
  /\ exists stored : string,
       getItem storageKey
           (navigateToStep 1 (updateStep1 Sample.step1Data Sample.freshService))
         = Some stored
       /\ stored = JSON_stringify (toJS (getCurrentConfiguration
                     (updateStep1 Sample.step1Data Sample.freshService)))
       /\ String.eqb stored
            (JSON_stringify (toJS (getCurrentConfiguration
               (navigateToStep 1 (updateStep1 Sample.step1Data Sample.freshService)))))
          = false.
Proof.
  split; [reflexivity|].
  eexists. repeat split; by_evaluation.
Qed.

(** What [navigateToStep] does to the store: nothing. *)
Lemma navigateToStep_localStorage (s : Z) (this : ConfigurationStateService) :
  localStorage (navigateToStep s this) = localStorage this.
Proof.
  unfold navigateToStep.
  destruct (s <=? currentStep (getCurrentConfiguration this)); reflexivity.
Qed.

(** C5, amended. In a browser (a store is there), each operation that
    goes through [updateConfiguration], that is [updateStep1/2/3],
    [completeConfiguration], [markAsGenerated] and [resetConfiguration],
    writes a snapshot, after which the stored snapshot is the
    serialization of the current state, and the store is still there for
    the next operation. *)
Theorem updateConfiguration_persists_snapshot
    (this : ConfigurationStateService) (store : gmap string string)
    (op : Operation) :
  localStorage this = Some store ->
  isNavigation op = false ->
  getItem storageKey (perform op this)
    = Some (JSON_stringify (toJS (getCurrentConfiguration (perform op this))))
  /\ exists store', localStorage (perform op this) = Some store'.
Proof.
  intros Hstore Hn.
  destruct op; try discriminate; cbn [perform]; service_unfold;
    rewrite getCurrentConfiguration_updateConfiguration;
    (split; [apply (getItem_updateConfiguration _ this store Hstore)|]);
    unfold updateConfiguration, setItem, next; cbn [localStorage];
    rewrite Hstore; eexists; reflexivity.
Qed.

(** ** Number arithmetic: the quotient of two integers

    Division of Numbers is [SFdiv] of the Standard Library's
    specification of binary64 (through [div_spec]); what follows reads
    its rounding off the definitions, for operands that are integers. *)

Lemma digits2_pos_bounds (p : positive) :
  2 ^ (Z.pos (digits2_pos p) - 1) <= Z.pos p < 2 ^ Z.pos (digits2_pos p).
Proof.
  induction p as [p IH | p IH |]; cbn [digits2_pos].
  - rewrite Pos2Z.inj_succ, (Pos2Z.inj_xI p).
    assert (2 ^ Z.pos (digits2_pos p) = 2 * 2 ^ (Z.pos (digits2_pos p) - 1)) as E.
    { rewrite <- Z.pow_succ_r by lia. f_equal. lia. }
    replace (Z.succ (Z.pos (digits2_pos p)) - 1) with (Z.pos (digits2_pos p)) by lia.
    rewrite Z.pow_succ_r by lia.
    generalize dependent (2 ^ (Z.pos (digits2_pos p) - 1)).
    generalize (2 ^ Z.pos (digits2_pos p)). intros; lia.
  - rewrite Pos2Z.inj_succ, (Pos2Z.inj_xO p).
    assert (2 ^ Z.pos (digits2_pos p) = 2 * 2 ^ (Z.pos (digits2_pos p) - 1)) as E.
    { rewrite <- Z.pow_succ_r by lia. f_equal. lia. }
    replace (Z.succ (Z.pos (digits2_pos p)) - 1) with (Z.pos (digits2_pos p)) by lia.
    rewrite Z.pow_succ_r by lia.
    generalize dependent (2 ^ (Z.pos (digits2_pos p) - 1)).
    generalize (2 ^ Z.pos (digits2_pos p)). intros; lia.
  - cbn. lia.
Qed.

Lemma Zdigits2_unique (m k : Z) :
  0 < m -> 2 ^ (k - 1) <= m < 2 ^ k -> Zdigits2 m = k.
Proof.
  intros Hm [Hlo Hhi]. destruct m as [|p|p]; try lia. cbn [Zdigits2].
  pose proof (digits2_pos_bounds p) as [Blo Bhi].
  assert (0 <= k) by (destruct (Z.leb_spec 0 k); [assumption|]; rewrite Z.pow_neg_r in Hhi by lia; lia).
  assert (k - 1 < Z.pos (digits2_pos p)).
  { apply (Z.pow_lt_mono_r_iff 2); lia. }
  assert (Z.pos (digits2_pos p) - 1 < k).
  { apply (Z.pow_lt_mono_r_iff 2); lia. }
  lia.
Qed.

Lemma iter_xO_value (p k : positive) :
  Z.pos (Pos.iter xO p k) = Z.pos p * 2 ^ Z.pos k.
Proof.
  induction k as [|k IH] using Pos.peano_ind.
  - cbn. lia.
  - rewrite Pos.iter_succ, Pos2Z.inj_xO, IH, Pos2Z.inj_succ, Z.pow_succ_r by lia. lia.
Qed.

Lemma fexp_normal (e : Z) : -1021 <= e -> fexp prec emax e = e - 53.
Proof. intros H. unfold fexp, emin, prec, emax. lia. Qed.

Lemma shr_fexp_53 (m e : Z) (l : location) :
  2 ^ 52 <= m < 2 ^ 53 -> -1074 <= e ->
  shr_fexp prec emax m e l = (shr_record_of_loc m l, e).
Proof.
  intros Hm He. unfold shr_fexp.
  rewrite (Zdigits2_unique m 53) by (cbn; lia).
  rewrite fexp_normal by lia.
  replace (53 + e - 53 - e) with 0 by lia. reflexivity.
Qed.

Lemma shr_fexp_54 (m e : Z) (l : location) :
  2 ^ 53 <= m < 2 ^ 54 -> -1074 <= e ->
  shr_fexp prec emax m e l = (shr_1 (shr_record_of_loc m l), e + 1).
Proof.
  intros Hm He. unfold shr_fexp.
  rewrite (Zdigits2_unique m 54) by (cbn; lia).
  rewrite fexp_normal by lia.
  replace (54 + e - 53 - e) with 1 by lia. reflexivity.
Qed.

Lemma shr_m_of_loc (m : Z) (l : location) : shr_m (shr_record_of_loc m l) = m.
Proof. destruct l as [|[]]; reflexivity. Qed.

Lemma loc_of_loc (m : Z) (l : location) :
  loc_of_shr_record (shr_record_of_loc m l) = l.
Proof. destruct l as [|[]]; reflexivity. Qed.

Lemma shr_1_m (mrs : shr_record) :
  0 <= shr_m mrs -> shr_m (shr_1 mrs) = shr_m mrs / 2.
Proof.
  destruct mrs as [m r s]. cbn [shr_m]. intros Hm.
  rewrite <- Z.div2_div.
  destruct m as [|[p|p|]|p]; try lia; reflexivity.
Qed.

Lemma round_nearest_even_cases (m : Z) (l : location) :
  round_nearest_even m l = m
  \/ (round_nearest_even m l = m + 1 /\ l <> loc_Exact).
Proof.
  destruct l as [|[]]; cbn [round_nearest_even]; try destruct (Z.even m);
    try (left; reflexivity); right; (split; [reflexivity | discriminate]).
Qed.

(** The last stage of [binary_round_aux]: a mantissa of 53 bits, or the
    power [2^53] that rounding up can reach, is stored as it is. *)
Lemma finish_stage (R e : Z) :
  2 ^ 52 <= R <= 2 ^ 53 -> -1074 <= e <= 970 ->
  exists (m : positive) (e' : Z),
    (let '(mrs, e'') := shr_fexp prec emax R e loc_Exact in
     match shr_m mrs with
     | Z0 => S754_zero false
     | Zpos m => if e'' <=? emax - prec then S754_finite false m e'' else S754_infinity false
     | Zneg _ => S754_nan
     end) = S754_finite false m e'
    /\ e <= e' /\ Z.pos m * 2 ^ (e' - e) = R /\ 2 ^ 52 <= Z.pos m < 2 ^ 53.
Proof.
  intros HR He.
  destruct (Z.ltb_spec R (2 ^ 53)) as [Hlt | Hge].
  - rewrite shr_fexp_53 by lia. cbn [shr_record_of_loc shr_m].
    destruct R as [|p|p]; try (cbn in HR; lia).
    exists p, e.
    replace (e <=? emax - prec) with true by (symmetry; apply Z.leb_le; unfold emax, prec; lia).
    rewrite Z.sub_diag. cbn [Z.pow]. repeat split; lia.
  - assert (R = 2 ^ 53) as -> by lia.
    rewrite shr_fexp_54 by (cbn; lia).
    exists (4503599627370496)%positive, (e + 1).
    replace (shr_m (shr_1 (shr_record_of_loc (2 ^ 53) loc_Exact))) with (Z.pos 4503599627370496)
      by reflexivity.
    replace (e + 1 <=? emax - prec) with true by (symmetry; apply Z.leb_le; unfold emax, prec; lia).
    replace (e + 1 - e) with 1 by lia.
    repeat split; try lia; reflexivity.
Qed.

Lemma shr_1_inexact (m : Z) (l : location) :
  0 <= m ->
  loc_of_shr_record (shr_1 (shr_record_of_loc m l)) <> loc_Exact ->
  l <> loc_Exact \/ m <> 2 * (m / 2).
Proof.
  intros Hm. rewrite <- Z.div2_div.
  destruct l as [|[]]; try (intros _; left; discriminate).
  destruct m as [|[p|p|]|p]; cbn; try lia;
    try (intros H; exfalso; apply H; reflexivity);
    intros _; right; lia.
Qed.

(** Rounding a quotient [q] of 53 or 54 bits: the result lies on the
    grid of step [g] (1 for 53 bits, 2 for 54), at the grid point below
    [q] or, only when something was cut off, at the next one. *)
Lemma binary_round_aux_spec (q E : Z) (l : location) :
  2 ^ 52 <= q < 2 ^ 54 -> -1074 <= E <= 960 ->
  exists (m : positive) (e g : Z),
    binary_round_aux prec emax false q E l = S754_finite false m e
    /\ E <= e /\ (g = 1 \/ g = 2) /\ (q < 2 ^ 53 -> g = 1)
    /\ 2 ^ 52 <= Z.pos m < 2 ^ 53
    /\ (Z.pos m * 2 ^ (e - E) = g * (q / g)
        \/ (Z.pos m * 2 ^ (e - E) = g * (q / g) + g
            /\ (l <> loc_Exact \/ q <> g * (q / g)))).
Proof.
  intros Hq HE. unfold binary_round_aux.
  destruct (Z.ltb_spec q (2 ^ 53)) as [Hlt | Hge].
  - rewrite shr_fexp_53 by lia. cbv beta iota.
    rewrite shr_m_of_loc, loc_of_loc.
    destruct (round_nearest_even_cases q l) as [Hr | [Hr Hl]]; rewrite Hr.
    + destruct (finish_stage q E) as (m & e & Heq & He & Hv & Hm); [lia | lia |].
      exists m, e, 1. rewrite Z.div_1_r.
      split; [exact Heq |]. repeat split; try lia; left; lia.
    + destruct (finish_stage (q + 1) E) as (m & e & Heq & He & Hv & Hm); [lia | lia |].
      exists m, e, 1. rewrite Z.div_1_r.
      split; [exact Heq |]. repeat split; try lia; right; split; [lia | left; exact Hl].
  - rewrite shr_fexp_54 by lia. cbv beta iota.
    rewrite shr_1_m by (rewrite shr_m_of_loc; lia). rewrite shr_m_of_loc.
    assert (2 ^ 52 <= q / 2 < 2 ^ 53) as Hhalf.
    { split; [apply Z.div_le_lower_bound | apply Z.div_lt_upper_bound]; lia. }
    assert (forall (m : positive) (e : Z), E + 1 <= e ->
              Z.pos m * 2 ^ (e - E) = 2 * (Z.pos m * 2 ^ (e - (E + 1)))) as Hstep.
    { intros m e He. replace (e - E) with (Z.succ (e - (E + 1))) by lia.
      rewrite Z.pow_succ_r by lia. lia. }
    destruct (round_nearest_even_cases (q / 2)
                (loc_of_shr_record (shr_1 (shr_record_of_loc q l)))) as [Hr | [Hr Hl]];
      rewrite Hr.
    + destruct (finish_stage (q / 2) (E + 1)) as (m & e & Heq & He & Hv & Hm); [lia | lia |].
      exists m, e, 2.
      split; [exact Heq |]. repeat split; try lia; left; rewrite Hstep by lia; lia.
    + destruct (finish_stage (q / 2 + 1) (E + 1)) as (m & e & Heq & He & Hv & Hm); [lia | lia |].
      exists m, e, 2.
      split; [exact Heq |]. repeat split; try lia; right; split;
        [rewrite Hstep by lia; lia | apply shr_1_inexact; [lia | exact Hl]].
Qed.

Lemma valid_normal (m : positive) (e : Z) :
  2 ^ 52 <= Z.pos m < 2 ^ 53 -> -1074 <= e <= 971 ->
  valid_binary (S754_finite false m e) = true.
Proof.
  intros Hm He. unfold SpecFloat.valid_binary, bounded, canonical_mantissa.
  change (Z.pos (digits2_pos m)) with (Zdigits2 (Z.pos m)).
  rewrite (Zdigits2_unique (Z.pos m) 53) by (cbn; lia).
  rewrite fexp_normal by lia.
  apply andb_true_intro. split; [apply Z.eqb_eq; lia | apply Z.leb_le; unfold emax, prec; lia].
Qed.

(** The Number value of a positive integer below [2^53] is that integer,
    with a mantissa of 53 bits. *)
Lemma Z_to_float_finite (n : Z) :
  0 < n < 2 ^ 53 ->
  exists (m : positive) (e : Z),
    Prim2SF (Z_to_float n) = S754_finite false m e
    /\ 2 ^ 52 <= Z.pos m < 2 ^ 53 /\ -52 <= e <= 0 /\ Z.pos m = n * 2 ^ (- e).
Proof.
  intros Hn. destruct n as [|p|p]; try lia.
  pose proof (digits2_pos_bounds p) as [Blo Bhi].
  assert (Z.pos (digits2_pos p) <= 53) as Hd.
  { assert (Z.pos (digits2_pos p) - 1 < 53); [apply (Z.pow_lt_mono_r_iff 2); lia | lia]. }
  assert (exists mz ez,
            shl_align p 0 (fexp prec emax (Z.pos (digits2_pos p) + 0)) = (mz, ez)
            /\ 2 ^ 52 <= Z.pos mz < 2 ^ 53 /\ -52 <= ez <= 0
            /\ Z.pos mz = Z.pos p * 2 ^ (- ez)) as (mz & ez & Hal & Hmz & Hez & Hval).
  { rewrite fexp_normal by lia. unfold shl_align.
    destruct (Z.pos (digits2_pos p) + 0 - 53 - 0) as [|k|k] eqn:Hk; try lia.
    - exists p, 0. assert (Z.pos (digits2_pos p) = 53) as E53 by lia.
      rewrite E53 in Blo, Bhi. cbn in Blo. repeat split; try lia; cbn; lia.
    - exists (Pos.iter xO p k), (Z.pos (digits2_pos p) + 0 - 53).
      assert (Z.pos k = 53 - Z.pos (digits2_pos p)) as Ek by lia.
      assert (2 ^ 53 = 2 ^ Z.pos (digits2_pos p) * 2 ^ Z.pos k) as Esplit.
      { rewrite <- Z.pow_add_r by lia. f_equal. lia. }
      assert (2 ^ 52 * 2 = 2 ^ (Z.pos (digits2_pos p) - 1) * 2 * 2 ^ Z.pos k) as Esplit'.
      { replace (2 ^ 52 * 2) with (2 ^ 53) by reflexivity. rewrite Esplit.
        replace (Z.pos (digits2_pos p)) with (Z.succ (Z.pos (digits2_pos p) - 1)) at 1 by lia.
        rewrite Z.pow_succ_r by lia. lia. }
      rewrite iter_xO_value.
      replace (- (Z.pos (digits2_pos p) + 0 - 53)) with (Z.pos k) by lia.
      assert (0 < 2 ^ Z.pos k) by (apply Z.pow_pos_nonneg; lia).
      repeat split; try lia; nia. }
  destruct (binary_round_aux_spec (Z.pos mz) ez loc_Exact) as
    (m & e & g & Heq & He & Hg & Hg1 & Hm & Hv); [lia | lia |].
  assert (g = 1) as -> by (apply Hg1; lia).
  rewrite Z.div_1_r in Hv.
  assert (Z.pos m * 2 ^ (e - ez) = Z.pos mz) as Hv'.
  { destruct Hv as [Hv | [_ [Hv | Hv]]]; [lia | congruence | lia]. }
  assert (e = ez) as ->.
  { destruct (Z.eq_dec e ez) as [|Hne]; [assumption | exfalso].
    assert (2 ^ 1 <= 2 ^ (e - ez)) by (apply Z.pow_le_mono_r; lia).
    change (2 ^ 1) with 2 in *. nia. }
  rewrite Z.sub_diag in Hv'. cbn [Z.pow] in Hv'.
  assert (m = mz) as -> by lia.
  exists mz, ez. split; [| repeat split; lia].
  unfold Z_to_float, binary_normalize, binary_round. rewrite Hal, Heq.
  apply Prim2SF_SF2Prim, valid_normal; lia.
Qed.

Lemma new_location_exact (D r : Z) :
  new_location D r <> loc_Exact -> r <> 0.
Proof.
  intros H ->. apply H. unfold new_location, new_location_even, new_location_odd.
  destruct (Z.even D); reflexivity.
Qed.

(** The quotient of two normal numbers: with [N / D] the quotient of the
    mantissas in units of [2^E], the result is the grid point [L] below
    it or, only when [N / D] is not [L] itself, the next one. *)
Lemma SF64div_spec (m1 m2 : positive) (e1 e2 : Z) :
  2 ^ 52 <= Z.pos m1 < 2 ^ 53 -> 2 ^ 52 <= Z.pos m2 < 2 ^ 53 ->
  -52 <= e1 <= 0 -> -52 <= e2 <= 0 ->
  exists (m : positive) (e g L : Z),
    SF64div (S754_finite false m1 e1) (S754_finite false m2 e2) = S754_finite false m e
    /\ e1 - e2 - 53 <= e /\ (g = 1 \/ g = 2) /\ (exists k, L = g * k)
    /\ 2 ^ 52 <= Z.pos m
    /\ L * Z.pos m2 <= Z.pos m1 * 2 ^ 53 < (L + g) * Z.pos m2
    /\ (Z.pos m * 2 ^ (e - (e1 - e2 - 53)) = L
        \/ (Z.pos m * 2 ^ (e - (e1 - e2 - 53)) = L + g
            /\ L * Z.pos m2 < Z.pos m1 * 2 ^ 53)).
Proof.
  intros H1 H2 He1 He2.
  unfold SF64div, SFdiv, SFdiv_core_binary. cbv zeta. cbn [xorb].
  rewrite (Zdigits2_unique (Z.pos m1) 53), (Zdigits2_unique (Z.pos m2) 53) by (cbn; lia).
  rewrite fexp_normal by lia.
  replace (Z.min (53 + e1 - (53 + e2) - 53) (e1 - e2)) with (e1 - e2 - 53) by lia.
  replace (e1 - e2 - (e1 - e2 - 53)) with 53 by lia. cbv iota.
  rewrite Z.shiftl_mul_pow2 by lia.
  pose proof (Z_div_mod (Z.pos m1 * 2 ^ 53) (Z.pos m2) ltac:(lia)) as Hdiv.
  destruct (Z.div_eucl (Z.pos m1 * 2 ^ 53) (Z.pos m2)) as [q r].
  destruct Hdiv as [HN Hr].
  assert (2 ^ 52 <= q < 2 ^ 54) as Hq.
  { change (2 ^ 52) with 4503599627370496 in *.
    change (2 ^ 53) with 9007199254740992 in *.
    change (2 ^ 54) with 18014398509481984. nia. }
  destruct (binary_round_aux_spec q (e1 - e2 - 53) (new_location (Z.pos m2) r))
    as (m & e & g & Heq & He & Hg & _ & Hm & Hv); [lia | lia |].
  exists m, e, g, (g * (q / g)).
  assert (0 < g) as Hgpos by lia.
  pose proof (Z.mul_div_le q g Hgpos) as Hle.
  pose proof (Z.mod_pos_bound q g Hgpos) as Hmod.
  pose proof (Z.div_mod q g ltac:(lia)) as Hqg.
  split; [exact Heq |].
  split; [lia |]. split; [exact Hg |]. split; [exists (q / g); reflexivity |].
  split; [lia |].
  assert (g * (q / g) * Z.pos m2 <= Z.pos m1 * 2 ^ 53) as Hlow.
  { rewrite HN. nia. }
  assert (Z.pos m1 * 2 ^ 53 < (g * (q / g) + g) * Z.pos m2) as Hhigh.
  { rewrite HN. nia. }
  split; [split; assumption |].
  destruct Hv as [Hv | [Hv Hcut]]; [left; exact Hv | right; split; [exact Hv |]].
  destruct Hcut as [Hl | Hl].
  - apply new_location_exact in Hl. rewrite HN. nia.
  - rewrite HN. nia.
Qed.

Lemma Number_truthy_finite (x : number) (m : positive) (e : Z) :
  Prim2SF x = S754_finite false m e -> Number_truthy x = true.
Proof.
  intros Hx. unfold Number_truthy, is_zero, is_nan.
  rewrite !FloatAxioms.eqb_spec, Hx.
  unfold SFeqb. cbn [SFcompare].
  replace (Prim2SF zero) with (S754_zero false) by reflexivity.
  rewrite Z.compare_refl, Pos.compare_cont_refl. reflexivity.
Qed.

(** [Math.ceil(n / d)] on integers: exact while [n] is below [2^52]. *)
Lemma Math_ceil_of_quotient (n d : Z) :
  0 < n < 2 ^ 52 -> 0 < d < 2 ^ 53 ->
  Math_ceil (Z_to_float n / Z_to_float d) = Z_to_float (ceil_div n d).
Proof.
  intros Hn Hd.
  destruct (Z_to_float_finite n) as (m1 & e1 & Hx1 & Hm1 & He1 & Hv1); [lia |].
  destruct (Z_to_float_finite d) as (m2 & e2 & Hx2 & Hm2 & He2 & Hv2); [lia |].
  destruct (SF64div_spec m1 m2 e1 e2 Hm1 Hm2 He1 He2)
    as (m & e & g & L & Hdiv & He & Hg & [k Hk] & Hm & [Hlow Hhigh] & Hv).
  unfold Math_ceil. rewrite div_spec, Hx1, Hx2, Hdiv.
  (* the integer reading *)
  set (K := ceil_div n d).
  assert ((K - 1) * d < n <= K * d) as [HK1 HK2].
  { unfold K, ceil_div.
    pose proof (Z.div_mod (- n) d ltac:(lia)).
    pose proof (Z.mod_pos_bound (- n) d ltac:(lia)). nia. }
  assert (1 <= K <= n) as HKn by nia.
  set (sd := 2 ^ (- e2)) in *. set (wn := 2 ^ (- e1)) in *.
  assert (0 < sd) by (apply Z.pow_pos_nonneg; lia).
  assert (2 <= wn).
  { destruct (Z.eq_dec e1 0) as [E0 | E0].
    - unfold wn in Hv1. rewrite E0 in Hv1. cbn in Hv1. cbn in Hm1. lia.
    - change 2 with (2 ^ 1). apply Z.pow_le_mono_r; lia. }
  set (tq := 2 ^ (- (e1 - e2 - 53))).
  assert (tq * sd = wn * 2 ^ 53) as Htq.
  { unfold tq, sd, wn. rewrite <- !Z.pow_add_r by lia. f_equal. lia. }
  assert (exists tq', tq = 2 * tq') as [tq' Htq'].
  { exists (2 ^ (- (e1 - e2 - 53) - 1)). unfold tq.
    rewrite <- Z.pow_succ_r by lia. f_equal. lia. }
  assert (0 < tq) by (apply Z.pow_pos_nonneg; lia).
  set (V := Z.pos m * 2 ^ (e - (e1 - e2 - 53))) in *.
  assert (L * d <= n * tq) as A1.
  { apply (Z.mul_le_mono_pos_r _ _ sd); [lia |].
    replace (n * tq * sd) with (n * wn * 2 ^ 53) by (rewrite <- !Z.mul_assoc, Htq; reflexivity).
    rewrite <- Hv1. replace (L * d * sd) with (L * (d * sd)) by lia. rewrite <- Hv2. exact Hlow. }
  assert (n * tq < (L + g) * d) as A2.
  { apply (Z.mul_lt_mono_pos_r sd); [lia |].
    replace (n * tq * sd) with (n * wn * 2 ^ 53) by (rewrite <- !Z.mul_assoc, Htq; reflexivity).
    rewrite <- Hv1. replace ((L + g) * d * sd) with ((L + g) * (d * sd)) by lia.
    rewrite <- Hv2. exact Hhigh. }
  assert (L * Z.pos m2 < Z.pos m1 * 2 ^ 53 -> L * d < n * tq) as A1'.
  { intros Hlt. apply (Z.mul_lt_mono_pos_r sd); [lia |].
    replace (n * tq * sd) with (n * wn * 2 ^ 53) by (rewrite <- !Z.mul_assoc, Htq; reflexivity).
    rewrite <- Hv1. replace (L * d * sd) with (L * (d * sd)) by lia. rewrite <- Hv2. exact Hlt. }
  assert (2 * d < tq) as A3.
  { apply (Z.mul_lt_mono_pos_r sd); [lia |]. rewrite Htq.
    replace (2 * d * sd) with (2 * (d * sd)) by lia. rewrite <- Hv2.
    assert (2 * 2 ^ 53 <= wn * 2 ^ 53) by (apply Z.mul_le_mono_nonneg_r; lia). lia. }
  assert (n * tq <= K * tq * d) as A4.
  { replace (K * tq * d) with (K * d * tq) by lia. apply Z.mul_le_mono_nonneg_r; lia. }
  assert ((K - 1) * tq * d + tq <= n * tq) as A5.
  { replace ((K - 1) * tq * d + tq) with (((K - 1) * d + 1) * tq) by lia.
    apply Z.mul_le_mono_nonneg_r; lia. }
  assert ((K - 1) * tq < V <= K * tq) as [HV1 HV2].
  { split.
    - assert ((K - 1) * tq < L); [| destruct Hv as [-> | [-> _]]; lia].
      apply (Z.mul_lt_mono_pos_r d); [lia |].
      assert (g * d <= 2 * d) by (destruct Hg as [-> | ->]; lia). lia.
    - assert (L <= K * tq) as HL.
      { apply (Z.mul_le_mono_pos_r _ _ d); lia. }
      destruct Hv as [-> | [-> Hlt]]; [exact HL |].
      assert (L < K * tq) as HL'.
      { apply (Z.mul_lt_mono_pos_r d); [lia |]. specialize (A1' Hlt). lia. }
      destruct Hg as [-> | ->]; [lia |]. rewrite Htq' in *. lia. }
  destruct (Z.leb_spec 0 e) as [Hpos | Hneg].
  - exfalso.
    assert (tq <= 2 ^ (e - (e1 - e2 - 53))) as HtqG.
    { unfold tq. apply Z.pow_le_mono_r; lia. }
    assert (Z.pos m * tq <= K * tq) as Hle.
    { apply Z.le_trans with V; [| exact HV2].
      unfold V. apply Z.mul_le_mono_nonneg_l; lia. }
    apply Z.mul_le_mono_pos_r in Hle; lia.
  - cbv zeta.
    set (P := 2 ^ (- e)).
    assert (0 < P) by (apply Z.pow_pos_nonneg; lia).
    set (G := 2 ^ (e - (e1 - e2 - 53))) in *.
    assert (0 < G) by (apply Z.pow_pos_nonneg; lia).
    assert (tq = P * G) as HtqP.
    { unfold tq, P, G. rewrite <- Z.pow_add_r by lia. f_equal. lia. }
    assert ((K - 1) * P < Z.pos m <= K * P) as [HP1 HP2].
    { split.
      - apply (Z.mul_lt_mono_pos_r G); [lia |].
        replace ((K - 1) * P * G) with ((K - 1) * tq) by (rewrite HtqP; lia). exact HV1.
      - apply (Z.mul_le_mono_pos_r _ _ G); [lia |].
        replace (K * P * G) with (K * tq) by (rewrite HtqP; lia). exact HV2. }
    assert (- (- Z.pos m / P) = K) as ->.
    { symmetry. apply Z.opp_inj. rewrite Z.opp_involutive.
      apply (Z.div_unique_pos (- Z.pos m) P (- K) (K * P - Z.pos m)); lia. }
    destruct (Z.eqb_spec K 0); [lia | reflexivity].
Qed.


Lemma Number_truthy_Z_to_float (n : Z) :
  0 < n < 2 ^ 53 -> Number_truthy (Z_to_float n) = true.
Proof.
  intros Hn. destruct (Z_to_float_finite n Hn) as (m & e & Hx & _).
  exact (Number_truthy_finite _ m e Hx).
Qed.

(** ** Derived values: total racks *)

Lemma ceil_div_bounds (n d : Z) :
  0 < d -> (ceil_div n d - 1) * d < n <= ceil_div n d * d.
Proof.
  intros Hd. unfold ceil_div.
  pose proof (Z.mul_div_le (- n) d Hd).
  pose proof (Z.mul_succ_div_gt (- n) d Hd).
  lia.
Qed.

(** C7, the claim as stated fails: the quotient is the Number quotient,
    which is rounded before [Math.ceil] sees it. 27021597764222984 nodes
    (a Number: [6755399441055746 * 2^2]) at 3 per rack give
    9007199254740994 racks, one less than the ceiling 9007199254740995 of
    the quotient, and too few to hold the nodes. *)
Lemma calculateTotalRacks_rounds_the_quotient :
  Prim2SF (Z_to_float 27021597764222984) = S754_finite false 6755399441055746 2
  /\ 6755399441055746 * 2 ^ 2 = 27021597764222984
  /\ Step1.calculateTotalRacks
       {| Step1.selectedSystemType := JNull;
          Step1.selectedDeploymentType := JNull;
          Step1.selectedNodes := Some (Z_to_float 27021597764222984);
          Step1.selectedNodesPerRack := Some 3%float |}
     = Z_to_float 9007199254740994
  /\ Prim2SF (Z_to_float 9007199254740994) = S754_finite false 4503599627370497 1
  /\ ceil_div 27021597764222984 3 = 9007199254740995
  /\ 9007199254740994 * 3 < 27021597764222984.
Proof. repeat split; by_evaluation. Qed.

(** C7, amended. With integer counts selected, [0 < nodes < 2^52] and
    [0 < nodesPerRack < 2^53], [calculateTotalRacks] returns the ceiling
    of [nodes / nodesPerRack]: the integer [racks] with [(racks - 1) *
    nodesPerRack < nodes <= racks * nodesPerRack], which is at least 1.
    It gives 2 for 8 nodes at 4 per rack and 2 for 5 nodes at 4 per rack;
    and it returns 0 when either count is absent or falsy ([null], 0 or
    [NaN]). *)
Theorem calculateTotalRacks_ceiling
    (this : Step1.Step1SystemTypeComponent) (systemType deploymentType : JSValue) :
  (forall nodes nodesPerRack : Z,
     Step1.selectedNodes this = Some (Z_to_float nodes) ->
     Step1.selectedNodesPerRack this = Some (Z_to_float nodesPerRack) ->
     0 < nodes < 2 ^ 52 -> 0 < nodesPerRack < 2 ^ 53 ->
     Step1.calculateTotalRacks this = Z_to_float (ceil_div nodes nodesPerRack)
     /\ (ceil_div nodes nodesPerRack - 1) * nodesPerRack < nodes
          <= ceil_div nodes nodesPerRack * nodesPerRack
     /\ 1 <= ceil_div nodes nodesPerRack)
  /\ (Step1.truthy (Step1.selectedNodes this) = false
      \/ Step1.truthy (Step1.selectedNodesPerRack this) = false ->
      Step1.calculateTotalRacks this = 0%float)
  /\ Step1.calculateTotalRacks
       {| Step1.selectedSystemType := systemType;
          Step1.selectedDeploymentType := deploymentType;
          Step1.selectedNodes := Some 8%float;
          Step1.selectedNodesPerRack := Some 4%float |} = 2%float
  /\ Step1.calculateTotalRacks
       {| Step1.selectedSystemType := systemType;
          Step1.selectedDeploymentType := deploymentType;
          Step1.selectedNodes := Some 5%float;
          Step1.selectedNodesPerRack := Some 4%float |} = 2%float.
Proof.
  split; [|split; [|split]].
  - intros nodes nodesPerRack Hn Hd Hnodes Hper.
    unfold Step1.calculateTotalRacks. rewrite Hn, Hd.
    rewrite (Number_truthy_Z_to_float nodes), (Number_truthy_Z_to_float nodesPerRack)
      by lia.
    cbn [andb]. rewrite Math_ceil_of_quotient by assumption.
    split; [reflexivity|].
    pose proof (ceil_div_bounds nodes nodesPerRack ltac:(lia)). nia.
  - unfold Step1.calculateTotalRacks, Step1.truthy.
    destruct (Step1.selectedNodes this) as [nodes|];
      destruct (Step1.selectedNodesPerRack this) as [nodesPerRack|];
      intros [H|H]; try discriminate H; try reflexivity;
      rewrite H, ?andb_false_r; reflexivity.
  - by_evaluation.
  - by_evaluation.
Qed.

(** ** Derived values: estimated power *)

(** A decimal numeral, [NaN] or [Infinity] names no member of
    [Object.prototype]: the key that a Number node count becomes finds an
    own entry of the table or nothing. *)
Lemma numeral_not_inherited (s : string) :
  Spec.starts_like_a_number s = true -> inherited s = false.
Proof.
  destruct s as [|c s]; [reflexivity|].
  unfold Spec.starts_like_a_number.
  destruct c as [[] [] [] [] [] [] [] []]; cbn; try discriminate; reflexivity.
Qed.

Lemma Z_toString_starts_like_a_number (x : Z) :
  Spec.starts_like_a_number (Z_toString x) = true.
Proof.
  unfold Z_toString.
  destruct (Z.to_int x) as [d|d]; [|reflexivity].
  destruct d; reflexivity.
Qed.

Lemma starts_like_a_number_append (s s' : string) :
  Spec.starts_like_a_number s = true -> Spec.starts_like_a_number (s ++ s') = true.
Proof. destruct s; [discriminate | intros H; exact H]. Qed.

Lemma starts_like_a_number_substring (n : nat) (s : string) :
  Spec.starts_like_a_number s = true ->
  Spec.starts_like_a_number (substring 0 (S n) s) = true.
Proof. destruct s; [discriminate | intros H; exact H]. Qed.

Lemma Number_toString_starts_like_a_number (x : number) :
  Spec.starts_like_a_number (Number_toString x) = true.
Proof.
  unfold Number_toString.
  destruct (Prim2SF x) as [sg | sg | | sg m e]; try reflexivity;
    [destruct sg; reflexivity|].
  destruct sg; [reflexivity|].
  change (Spec.starts_like_a_number (Number_toString_pos m e) = true).
  unfold Number_toString_pos.
  destruct (shortest 800 m e _) as [digits t].
  pose proof (Z_toString_starts_like_a_number digits) as Hds.
  cbv zeta.
  set (k := Z.of_nat (String.length (Z_toString digits))).
  destruct ((k <=? t + k) && (t + k <=? 21)).
  { apply starts_like_a_number_append; exact Hds. }
  destruct ((0 <? t + k) && (t + k <=? 21)) eqn:Hn.
  { apply andb_prop in Hn as [Hpos _]. apply Z.ltb_lt in Hpos.
    destruct (Z.to_nat (t + k)) eqn:Hnat; [lia|].
    apply starts_like_a_number_append, starts_like_a_number_substring, Hds. }
  destruct ((-6 <? t + k) && (t + k <=? 0)); [reflexivity|].
  destruct (k =? 1).
  { apply starts_like_a_number_append; exact Hds. }
  apply starts_like_a_number_append, (starts_like_a_number_substring 0), Hds.
Qed.

(** C8, the claim as stated fails: for a deployment type that the base
    table does not list (so that the looked-up entry is missing) the
    computation does not fall back to 1000; indexing the missing
    sub-table raises a [TypeError], and no estimate is assigned. *)
Lemma calculatePowerConsumption_unlisted_deployment_raises :
  Step2.baseConsumption (Step2.powerCalculation Sample.step2Config) !! "hypercluster"
    = None
  /\ inherited "hypercluster" = false
  /\ fst (Step2.calculatePowerConsumption Sample.noBuiltinProperty
            (updateStep1 Sample.unlistedDeployment Sample.freshService)
            Sample.step2Form) = Throw TypeError
  /\ Step2.estimatedPowerConsumption
       (snd (Step2.calculatePowerConsumption Sample.noBuiltinProperty
               (updateStep1 Sample.unlistedDeployment Sample.freshService)
               Sample.step2Form)) = 0%float.
Proof. repeat split; by_evaluation. Qed.

(** C8, amended. When the deployment type id of step 1 is a key of the
    base table, [calculatePowerConsumption] looks up the entry of the node
    count in that sub-table, takes 1000 as the base when the entry is
    missing (or is falsy), and assigns [Math.round(base * efficiency
    multiplier * regional multiplier * 10) / 10] without raising; the
    efficiency multiplier itself defaults to 1. A key that is not listed
    but names a member of [Object.prototype] (such as [constructor])
    finds that member instead of nothing, and the estimate is then [NaN];
    the key of a Number node count never does. A base of 1000 with
    multipliers 0.9 and 1.1 gives 990. *)
Theorem calculatePowerConsumption_estimate
    (builtins : Builtins)
    (configService : ConfigurationStateService)
    (this : Step2.Step2PowerConfigComponent)
    (powerConfig : Step2.PowerConfiguration) (region : Step2.Region)
    (cfg : Step2.Step2Config) (table : gmap string number) :
  let step1Data := step1 (getCurrentConfiguration configService) in
  let deploymentType := prop (prop step1Data "deploymentType") "id" in
  let nodeCount := ToString (prop step1Data "selectedNodes") in
  let basePower :=
    match table !! nodeCount with
    | Some entry => if Number_truthy entry then entry else 1000%float
    | None => if inherited nodeCount then PrimFloat.nan else 1000%float
    end in
  let efficiencyMultiplier :=
    match Step2.efficiencyMultipliers (Step2.powerCalculation cfg)
            !! Step2.id powerConfig with
    | Some m => if Number_truthy m then m else 1%float
    | None => if inherited (Step2.id powerConfig) then PrimFloat.nan else 1%float
    end in
  Step2.selectedPowerConfiguration this = Some powerConfig ->
  Step2.selectedRegion this = Some region ->
  Step2.config this = Some cfg ->
  ToBoolean step1Data = true ->
  is_nullish (prop step1Data "deploymentType") = false ->
  is_nullish (prop step1Data "selectedNodes") = false ->
  Step2.baseConsumption (Step2.powerCalculation cfg) !! ToString deploymentType
    = Some table ->
  Step2.calculatePowerConsumption builtins configService this =
    (OK tt,
     {| Step2.config := Step2.config this;
        Step2.selectedPowerConfiguration := Step2.selectedPowerConfiguration this;
        Step2.selectedRegion := Step2.selectedRegion this;
        Step2.showSummary := Step2.showSummary this;
        Step2.calculatedEfficiency := Step2.efficiency powerConfig;
        Step2.estimatedPowerConsumption :=
          (Math_round (basePower * efficiencyMultiplier
                       * Step2.powerMultiplier region * 10) / 10)%float |})
  /\ (forall nodes : number,
        prop step1Data "selectedNodes" = JNum nodes -> inherited nodeCount = false)
  /\ (Math_round (1000 * 0.9 * 1.1 * 10) / 10)%float = 990%float.
Proof.
  cbv zeta. intros Hpc Hrg Hcfg Htruthy Hdt Hsn Htable.
  split; [|split; [|by_evaluation]].
  - assert (Hstep : is_nullish (step1 (getCurrentConfiguration configService)) = false).
    { destruct (step1 (getCurrentConfiguration configService)); try reflexivity;
        discriminate Htruthy. }
    unfold Step2.calculatePowerConsumption.
    unfold mbind, mret, Step2.Method_bind, Step2.Method_ret, Step2.getThis.
    rewrite Hpc, Hrg, Hcfg, Htruthy. cbn [negb].
    unfold Step2.set_calculatedEfficiency, Step2.lift, Get, Step2.toString.
    rewrite Hstep, Hdt, Hsn.
    unfold Step2.index_or, Step2.set_estimatedPowerConsumption, factor_or, GetFrom.
    rewrite Htable.
    cbn [Step2.config Step2.selectedPowerConfiguration Step2.selectedRegion
         Step2.showSummary Step2.calculatedEfficiency Step2.estimatedPowerConsumption].
    rewrite Hpc, Hrg, Hcfg.
    destruct (table !! _) as [entry|];
      destruct (Step2.efficiencyMultipliers (Step2.powerCalculation cfg) !! _) as [m|];
      try destruct (inherited (ToString _));
      try destruct (inherited (Step2.id powerConfig));
      reflexivity.
  - intros nodes Hnodes. rewrite Hnodes. cbn [ToString].
    apply numeral_not_inherited, Number_toString_starts_like_a_number.
Qed.

(** ** The exported configuration *)

Lemma OptGet_prop (v : JSValue) (k : string) : OptGet v k = prop v k.
Proof. destruct v; reflexivity. Qed.

Lemma is_nullish_falsy (v : JSValue) : is_nullish v = true -> ToBoolean v = false.
Proof. destruct v; try discriminate; reflexivity. Qed.

Lemma prop_nullish (v : JSValue) (k : string) :
  is_nullish v = true -> prop v k = JUndefined.
Proof. destruct v; try discriminate; reflexivity. Qed.

Lemma selectedName_projects (step : JSValue) (field : string) :
  Spec.projectsName (selectedName step field) step field.
Proof.
  unfold Spec.projectsName, Spec.nameMissing, selectedName, or_else, Spec.projected.
  rewrite !OptGet_prop.
  destruct (is_nullish step) eqn:Hs.
  { rewrite (prop_nullish step field Hs). cbn. split; [reflexivity|discriminate]. }
  destruct (is_nullish (prop step field)) eqn:Hf.
  { rewrite (prop_nullish _ "name" Hf). cbn. split; [reflexivity|discriminate]. }
  cbn [orb].
  destruct (is_nullish (prop (prop step field) "name")) eqn:Hn.
  - rewrite (is_nullish_falsy _ Hn). split; [reflexivity|discriminate].
  - split; [discriminate|reflexivity].
Qed.

Lemma selectedNumber_projects (step : JSValue) (field : string) :
  Spec.projectsNumber (selectedNumber step field) step field.
Proof.
  unfold Spec.projectsNumber, Spec.numberMissing, selectedNumber, or_else, Spec.projected.
  rewrite OptGet_prop.
  destruct (is_nullish step) eqn:Hs.
  { rewrite (prop_nullish step field Hs). cbn. split; [reflexivity|discriminate]. }
  cbn [orb].
  destruct (is_nullish (prop step field)) eqn:Hf.
  - rewrite (is_nullish_falsy _ Hf). split; [reflexivity|discriminate].
  - split; [discriminate|reflexivity].
Qed.

Lemma is_digit_digit (n : Z) : Spec.is_digit (digit n) = true.
Proof.
  unfold Spec.is_digit, digit.
  pose proof (Z.mod_pos_bound n 10 ltac:(lia)) as Hb.
  rewrite nat_ascii_embedding by lia.
  apply andb_true_intro; split; apply Nat.leb_le; lia.
Qed.

Lemma Date_toISOString_shape (t : Z) :
  0 <= YearFromTime t <= 9999 -> Spec.isISO8601 (Date_toISOString t) = true.
Proof.
  unfold YearFromTime, Date_toISOString, Spec.isISO8601, year_string.
  destruct (civil_from_days (t / msPerDay)) as [[y m] d]. cbn [fst].
  intros [Hlo Hhi].
  apply Z.leb_le in Hlo, Hhi. rewrite Hlo, Hhi.
  cbv [andb padded String.append Spec.spelt Ascii.eqb Bool.eqb].
  rewrite !is_digit_digit. reflexivity.
Qed.

(** C9. [getFinalConfiguration] is total (it reads with [?.] and [||]
    only, so nothing in it can raise), whatever is missing from the
    state. The record it returns holds, for each of the seven selected
    options, the projection of its name, and for each of the five numbers
    its projection: a missing name gives the empty string and a missing
    number gives 0. It carries the version string 1.0 and the time of the
    call printed by [toISOString], which for the years 0 to 9999 is spelt
    YYYY-MM-DDTHH:mm:ss.sssZ. *)
Theorem getFinalConfiguration_projects
    (now : Z) (this : ConfigurationStateService) :
  let config := getCurrentConfiguration this in
  let final := getFinalConfiguration now this in
  (Spec.projectsName (type (system final)) (step1 config) "systemType"
   /\ Spec.projectsName (deployment (system final)) (step1 config) "deploymentType"
   /\ Spec.projectsNumber (nodes (system final)) (step1 config) "selectedNodes"
   /\ Spec.projectsNumber (nodesPerRack (system final)) (step1 config) "nodesPerRack"
   /\ Spec.projectsNumber (totalRacks (system final)) (step1 config) "totalRacks")
  /\ (Spec.projectsName (configuration (power final)) (step2 config) "powerConfiguration"
      /\ Spec.projectsName (region (power final)) (step2 config) "region"
      /\ Spec.projectsNumber (efficiency (power final)) (step2 config)
           "calculatedEfficiency"
      /\ Spec.projectsNumber (estimatedConsumption (power final)) (step2 config)
           "estimatedPowerConsumption")
  /\ (Spec.projectsName (protocol (storage final)) (step3 config) "storageProtocol"
      /\ Spec.projectsName (vendor (storage final)) (step3 config) "storageVendor"
      /\ Spec.projectsName (support (storage final)) (step3 config) "supportOption")
  /\ timestamp final = Date_toISOString now
  /\ (0 <= YearFromTime now <= 9999 -> Spec.isISO8601 (timestamp final) = true)
  /\ version final = "1.0".
Proof.
  cbv zeta. unfold getFinalConfiguration.
  cbn [system power storage timestamp version type deployment nodes nodesPerRack
       totalRacks configuration region efficiency estimatedConsumption protocol
       vendor support].
  repeat split;
    first [ apply selectedName_projects
          | apply selectedNumber_projects
          | apply Date_toISOString_shape; assumption ].
Qed.

(** ** Instances on the sample data *)

Lemma calculateConfigHash_rolling_witness :
  configString (getCurrentConfiguration Sample.afterStep1)
    = configString (getCurrentConfiguration (navigateToStep 1 Sample.afterStep1))
  /\ calculateConfigHash Sample.afterStep1
     = calculateConfigHash (navigateToStep 1 Sample.afterStep1).
Proof.
  split; [reflexivity|].
  apply (calculateConfigHash_rolling Sample.afterStep1 (navigateToStep 1 Sample.afterStep1)).
  reflexivity.
Defined.

Lemma currentStep_monotone_without_navigation_witness :
  forallb (fun op => negb (isReset op) && negb (isNavigation op))
    [UpdateStep1 Sample.step1Data; MarkAsGenerated; UpdateStep3 Sample.step3Data;
     CompleteConfiguration] = true
  /\ currentStep (getCurrentConfiguration Sample.freshService)
     <= currentStep (getCurrentConfiguration
          (run [UpdateStep1 Sample.step1Data; MarkAsGenerated;
                UpdateStep3 Sample.step3Data; CompleteConfiguration]
             Sample.freshService)).
Proof.
  split; [reflexivity|].
  apply (currentStep_monotone_without_navigation
           [UpdateStep1 Sample.step1Data; MarkAsGenerated;
            UpdateStep3 Sample.step3Data; CompleteConfiguration]
           Sample.freshService 1).
  reflexivity.
Defined.

Lemma updateConfiguration_persists_snapshot_witness :
  localStorage Sample.freshService = Some ∅
  /\ isNavigation (UpdateStep1 Sample.step1Data) = false
  /\ getItem storageKey (perform (UpdateStep1 Sample.step1Data) Sample.freshService)
     = Some (JSON_stringify (toJS (getCurrentConfiguration
               (perform (UpdateStep1 Sample.step1Data) Sample.freshService)))).
Proof.
  split; [reflexivity|]. split; [reflexivity|].
  apply (updateConfiguration_persists_snapshot Sample.freshService ∅
           (UpdateStep1 Sample.step1Data)); reflexivity.
Defined.

Lemma navigateToStep_ahead_is_noop_witness :
  currentStep (getCurrentConfiguration Sample.afterStep1) < 4
  /\ navigateToStep 4 Sample.afterStep1 = Sample.afterStep1.
Proof.
  split; [by_evaluation|].
  apply (navigateToStep_ahead_is_noop Sample.afterStep1 4).
  by_evaluation.
Defined.

Lemma calculateTotalRacks_ceiling_witness :
  Step1.selectedNodes Sample.step1Form = Some (Z_to_float 4)
  /\ Step1.selectedNodesPerRack Sample.step1Form = Some (Z_to_float 4)
  /\ 0 < 4 < 2 ^ 52
  /\ Step1.calculateTotalRacks Sample.step1Form = Z_to_float (ceil_div 4 4)
  /\ (ceil_div 4 4 - 1) * 4 < 4 <= ceil_div 4 4 * 4
  /\ 1 <= ceil_div 4 4.
Proof.
  split; [reflexivity|]. split; [reflexivity|]. split; [lia|].
  apply (proj1 (calculateTotalRacks_ceiling Sample.step1Form JNull JNull) 4 4);
    [reflexivity | reflexivity | lia | lia].
Defined.

Lemma calculatePowerConsumption_estimate_witness :
  Step2.selectedPowerConfiguration Sample.step2Form
    = Some {| Step2.id := "full-dc"; Step2.efficiency := 0.95%float |}
  /\ Step2.selectedRegion Sample.step2Form = Some {| Step2.powerMultiplier := 1.1%float |}
  /\ Step2.config Sample.step2Form = Some Sample.step2Config
  /\ Step2.baseConsumption (Step2.powerCalculation Sample.step2Config) !! "minicluster"
     = Some Sample.miniclusterTable
  /\ fst (Step2.calculatePowerConsumption Sample.noBuiltinProperty
            Sample.afterStep1 Sample.step2Form) = OK tt
  /\ Step2.estimatedPowerConsumption
       (snd (Step2.calculatePowerConsumption Sample.noBuiltinProperty
               Sample.afterStep1 Sample.step2Form))
     = 990%float.
Proof.
  split; [reflexivity|]. split; [reflexivity|]. split; [reflexivity|].
  split; [by_evaluation|].
  rewrite (proj1 (calculatePowerConsumption_estimate Sample.noBuiltinProperty
                    Sample.afterStep1 Sample.step2Form
                    {| Step2.id := "full-dc"; Step2.efficiency := 0.95%float |}
                    {| Step2.powerMultiplier := 1.1%float |}
                    Sample.step2Config
                    Sample.miniclusterTable
                    eq_refl eq_refl eq_refl eq_refl eq_refl eq_refl
                    ltac:(by_evaluation))).
  split; by_evaluation.
Defined.

Lemma getFinalConfiguration_projects_witness :
  let final := getFinalConfiguration Sample.clock Sample.afterStep1 in
  Spec.nameMissing (step1 (getCurrentConfiguration Sample.afterStep1)) "systemType" = false
  /\ type (system final) = JStr "DataCore X300"
  /\ Spec.nameMissing (step2 (getCurrentConfiguration Sample.afterStep1))
       "powerConfiguration" = true
  /\ configuration (power final) = JStr ""
  /\ Spec.numberMissing (step2 (getCurrentConfiguration Sample.afterStep1))
       "calculatedEfficiency" = true
  /\ efficiency (power final) = JNum 0
  /\ 0 <= YearFromTime Sample.clock <= 9999
  /\ timestamp final = "2025-01-01T00:00:00.000Z"
  /\ Spec.isISO8601 (timestamp final) = true.
Proof.
  cbv zeta.
  destruct (getFinalConfiguration_projects Sample.clock Sample.afterStep1)
    as ((Htype & _) & (Hconf & _ & Heff & _) & _ & Htime & Hiso & _).
  split; [by_evaluation|].
  split; [rewrite (proj2 Htype); by_evaluation|].
  split; [by_evaluation|].
  split; [apply (proj1 Hconf); by_evaluation|].
  split; [by_evaluation|].
  split; [apply (proj1 Heff); by_evaluation|].
  split; [vm_compute; split; discriminate|].
  split; [rewrite Htime; by_evaluation|].
  apply Hiso. vm_compute; split; discriminate.
Defined.

Lemma hasConfigurationChanged_ignores_progress_witness :
  step1 (getCurrentConfiguration Sample.afterStep1)
    = step1 (getCurrentConfiguration (completeConfiguration (navigateToStep 1 Sample.afterStep1)))
  /\ currentStep (getCurrentConfiguration Sample.afterStep1) = 2
  /\ currentStep (getCurrentConfiguration
        (completeConfiguration (navigateToStep 1 Sample.afterStep1))) = 1
  /\ hasConfigurationChanged Sample.afterStep1
     = hasConfigurationChanged (completeConfiguration (navigateToStep 1 Sample.afterStep1)).
Proof.
  split; [reflexivity|]. split; [reflexivity|]. split; [reflexivity|].
  apply (hasConfigurationChanged_ignores_progress Sample.afterStep1
           (completeConfiguration (navigateToStep 1 Sample.afterStep1)) 1);
    reflexivity.
Defined.

(* ===================================================================== *)
(** * Further properties of the code                                     *)
(* ===================================================================== *)

(** ** Reset *)

Lemma withStep_currentStep (config : ConfigurationData) :
  Invariant.withStep (currentStep config) config = config.
Proof. destruct config; reflexivity. Qed.

(** X1. [resetConfiguration] puts the initial configuration in place of
    any state, after which only step 1 is accessible and the
    configuration counts as changed; resetting twice is resetting once;
    and the [navigateToStep(1)] that [onNewConfiguration] makes after the
    reset changes nothing more. *)
Theorem resetConfiguration_restores_initial
    (this : ConfigurationStateService) (step : Z) :
  getCurrentConfiguration (resetConfiguration this) = initialConfiguration
  /\ resetConfiguration (resetConfiguration this) = resetConfiguration this
  /\ Step4.onNewConfiguration true this = resetConfiguration this
  /\ Step4.onNewConfiguration false this = this
  /\ hasConfigurationChanged (resetConfiguration this) = true
  /\ isStepAccessible step (resetConfiguration this) = (step <=? 1).
Proof.
  destruct this as [config [store|]];
    unfold Step4.onNewConfiguration, resetConfiguration, updateConfiguration,
      setItem, next, navigateToStep, getCurrentConfiguration;
    cbn [configurationSubject localStorage currentStep Z.leb Z.compare];
    repeat split.
  f_equal. f_equal. apply insert_insert_eq.
Qed.

(** ** The stored hash along runs *)

Lemma calculateConfigHash_reads (a b : ConfigurationStateService) :
  step1 (getCurrentConfiguration a) = step1 (getCurrentConfiguration b) ->
  step2 (getCurrentConfiguration a) = step2 (getCurrentConfiguration b) ->
  step3 (getCurrentConfiguration a) = step3 (getCurrentConfiguration b) ->
  calculateConfigHash a = calculateConfigHash b.
Proof.
  intros H1 H2 H3. unfold calculateConfigHash, configString.
  now rewrite H1, H2, H3.
Qed.

Lemma perform_hashIsCurrent (op : Operation) (this : ConfigurationStateService) :
  Invariant.hashIsCurrent this -> Invariant.hashIsCurrent (perform op this).
Proof.
  unfold Invariant.hashIsCurrent. intros H.
  destruct op; cbn [perform]; service_unfold;
    try (rewrite getCurrentConfiguration_updateConfiguration;
         cbn [lastGeneratedHash]).
  1-3, 7: exact I.
  - unfold navigateToStep.
    destruct (step <=? currentStep (getCurrentConfiguration this)); [|exact H].
    change (lastGeneratedHash (getCurrentConfiguration (next _ this)))
      with (lastGeneratedHash (getCurrentConfiguration this)).
    destruct (lastGeneratedHash (getCurrentConfiguration this)) as [h|];
      [|exact I].
    rewrite H. apply calculateConfigHash_reads; reflexivity.
  - destruct (lastGeneratedHash (getCurrentConfiguration this)) as [h|];
      [|exact I].
    rewrite H. apply calculateConfigHash_reads; reflexivity.
  - apply calculateConfigHash_reads; reflexivity.
Qed.

Lemma run_hashIsCurrent (ops : list Operation) (this : ConfigurationStateService) :
  Invariant.hashIsCurrent this -> Invariant.hashIsCurrent (run ops this).
Proof.
  revert this. unfold run.
  induction ops as [|op ops IH]; intros this H; simpl; [exact H|].
  apply IH, perform_hashIsCurrent, H.
Qed.

(** X2. In every state reached by a run of operations from a state whose
    stored hash, if any, is current (the initial state is one), the stored
    hash, if any, is again current. So there [hasConfigurationChanged]
    returns true exactly when no hash is stored: through the operations
    of the service the comparison of hashes never finds a difference. *)
Theorem hash_comparison_never_differs
    (ops : list Operation) (this : ConfigurationStateService) :
  Invariant.hashIsCurrent this ->
  Invariant.hashIsCurrent (run ops this)
  /\ hasConfigurationChanged (run ops this)
     = match lastGeneratedHash (getCurrentConfiguration (run ops this)) with
       | Some _ => false
       | None => true
       end.
Proof.
  intros H. pose proof (run_hashIsCurrent ops this H) as Hrun.
  split; [exact Hrun|].
  unfold Invariant.hashIsCurrent in Hrun. unfold hasConfigurationChanged.
  destruct (lastGeneratedHash (getCurrentConfiguration (run ops this))) as [h|];
    [|reflexivity].
  rewrite Hrun at 1. unfold calculateConfigHash at 1.
  rewrite Z_toString_nonempty.
  rewrite Hrun. rewrite String.eqb_refl. reflexivity.
Qed.

(** ** The range of [currentStep] *)

(** X3. [currentStep] stays within 1..4 along every run of operations in
    which each [navigateToStep] is to a step from 1 on. ([navigateToStep]
    itself only checks its argument against [currentStep], from above.) *)
Theorem currentStep_stays_in_range
    (ops : list Operation) (this : ConfigurationStateService) :
  1 <= currentStep (getCurrentConfiguration this) <= 4 ->
  forallb Invariant.navigatesFromOne ops = true ->
  1 <= currentStep (getCurrentConfiguration (run ops this)) <= 4.
Proof.
  revert this. unfold run.
  induction ops as [|op ops IH]; intros this Hrange Hall; simpl in *; [exact Hrange|].
  apply andb_prop in Hall as [Hop Hall].
  apply IH; [|exact Hall].
  destruct op; cbn [perform]; service_unfold;
    try (rewrite getCurrentConfiguration_updateConfiguration; cbn [currentStep]; lia).
  rewrite navigateToStep_currentStep.
  cbn [Invariant.navigatesFromOne] in Hop. apply Z.leb_le in Hop.
  destruct (Z.leb_spec step (currentStep (getCurrentConfiguration this))); lia.
Qed.

(** ** The stored snapshot along runs *)

Lemma perform_keeps_store (op : Operation) (this : ConfigurationStateService) :
  (exists store, localStorage this = Some store) ->
  exists store, localStorage (perform op this) = Some store.
Proof.
  intros [store Hstore].
  destruct op; cbn [perform]; service_unfold;
    try (unfold updateConfiguration, setItem, next; cbn [localStorage];
         rewrite Hstore; eexists; reflexivity).
  rewrite navigateToStep_localStorage. eauto.
Qed.

Lemma updateConfiguration_snapshotAhead (config : ConfigurationData)
    (this : ConfigurationStateService) (store : gmap string string) :
  localStorage this = Some store ->
  Invariant.snapshotAhead (updateConfiguration config this).
Proof.
  intros Hstore. exists (currentStep config).
  rewrite getCurrentConfiguration_updateConfiguration, withStep_currentStep.
  split; [lia|]. apply (getItem_updateConfiguration _ this store Hstore).
Qed.

Lemma perform_snapshotAhead (op : Operation) (this : ConfigurationStateService) :
  (exists store, localStorage this = Some store) ->
  isNavigation op = false \/ Invariant.snapshotAhead this ->
  Invariant.snapshotAhead (perform op this).
Proof.
  intros [store Hstore] H.
  destruct op; cbn [perform]; service_unfold;
    try apply (updateConfiguration_snapshotAhead _ this store Hstore).
  destruct H as [H|[k [Hk Hitem]]]; [discriminate H|].
  unfold navigateToStep.
  destruct (Z.leb_spec step (currentStep (getCurrentConfiguration this))) as [Hle|Hgt].
  - exists k. split; [cbn; lia|].
    unfold getItem, next in *. cbn [localStorage] in *. rewrite Hitem. reflexivity.
  - exists k. split; [exact Hk|exact Hitem].
Qed.

(** X4. In a browser, once an operation other than [navigateToStep] has
    run, the stored snapshot is, after any further run of operations, the
    serialization of the current state but for [currentStep]; and the
    [currentStep] of the snapshot is never behind the current one. What a
    navigation leaves unsaved is the step pointer alone. *)
Theorem snapshot_differs_in_step_only
    (op : Operation) (ops : list Operation)
    (this : ConfigurationStateService) (store : gmap string string) :
  localStorage this = Some store ->
  isNavigation op = false ->
  Invariant.snapshotAhead (run (op :: ops) this).
Proof.
  intros Hstore Hop. unfold run. cbn [fold_left].
  assert (Hfirst : Invariant.snapshotAhead (perform op this))
    by (apply perform_snapshotAhead; eauto).
  assert (Hbrowser : exists st, localStorage (perform op this) = Some st)
    by (apply perform_keeps_store; eauto).
  generalize dependent (perform op this). clear.
  induction ops as [|op' ops IH]; intros s Hs Hb; simpl; [exact Hs|].
  apply IH.
  - apply perform_snapshotAhead; [exact Hb|right; exact Hs].
  - apply perform_keeps_store, Hb.
Qed.

(** ** Which operations touch a payload *)

(** X5. The payload of a step is assigned by the [updateStep] of that step
    and by a reset, and by nothing else: along a run that holds neither,
    it stays what it was. *)
Theorem payload_kept_without_write
    (k : Z) (ops : list Operation) (this : ConfigurationStateService) :
  forallb (fun op => negb (Invariant.writes k op)) ops = true ->
  Invariant.payload k (getCurrentConfiguration (run ops this))
    = Invariant.payload k (getCurrentConfiguration this).
Proof.
  revert this. unfold run.
  induction ops as [|op ops IH]; intros this Hall; simpl in *; [reflexivity|].
  apply andb_prop in Hall as [Hop Hall]. apply negb_true_iff in Hop.
  rewrite (IH _ Hall). clear IH Hall.
  unfold Invariant.payload.
  destruct op; cbn [perform Invariant.writes] in *; service_unfold;
    try rewrite getCurrentConfiguration_updateConfiguration;
    cbn [step1 step2 step3];
    try discriminate Hop;
    try (destruct (k =? 1), (k =? 2); try discriminate Hop; reflexivity).
  unfold navigateToStep.
  destruct (step <=? currentStep (getCurrentConfiguration this)); reflexivity.
Qed.

(** ** Saving again what is already saved *)

(** X6. After a generation, saving a step again with the very payload it
    already holds leaves the three payloads and their hash as they were,
    and still clears the stored hash and the completion flag: the
    configuration counts as changed although nothing in it changed. *)
Theorem resaving_same_payload_invalidates (this : ConfigurationStateService) :
  let generated := markAsGenerated (completeConfiguration this) in
  let config := getCurrentConfiguration generated in
  hasConfigurationChanged generated = false
  /\ isComplete config = true
  /\ (let saved := updateStep1 (step1 config) generated in
      hasConfigurationChanged saved = true
      /\ isComplete (getCurrentConfiguration saved) = false
      /\ calculateConfigHash saved = calculateConfigHash generated
      /\ configString (getCurrentConfiguration saved) = configString config)
  /\ (let saved := updateStep2 (step2 config) generated in
      hasConfigurationChanged saved = true
      /\ isComplete (getCurrentConfiguration saved) = false
      /\ calculateConfigHash saved = calculateConfigHash generated
      /\ configString (getCurrentConfiguration saved) = configString config)
  /\ (let saved := updateStep3 (step3 config) generated in
      hasConfigurationChanged saved = true
      /\ isComplete (getCurrentConfiguration saved) = false
      /\ calculateConfigHash saved = calculateConfigHash generated
      /\ configString (getCurrentConfiguration saved) = configString config).
Proof.
  cbv zeta. split; [|repeat split].
  unfold markAsGenerated.
  rewrite (hasConfigurationChanged_reads
             {| step1 := step1 (getCurrentConfiguration (completeConfiguration this));
                step2 := step2 (getCurrentConfiguration (completeConfiguration this));
                step3 := step3 (getCurrentConfiguration (completeConfiguration this));
                currentStep := 0;
                isComplete := true;
                lastGeneratedHash :=
                  Some (calculateConfigHash (completeConfiguration this)) |})
    by reflexivity.
  cbn [lastGeneratedHash].
  unfold calculateConfigHash at 1. rewrite Z_toString_nonempty.
  unfold calculateConfigHash, configString. cbn [step1 step2 step3].
  rewrite String.eqb_refl. reflexivity.
Qed.

(** ** Navigation and access *)

(** X7. Going to an accessible step [k] (any integer up to [currentStep],
    none is refused from below) makes [k] the last accessible step: every
    step past [k] is closed again, until an [updateStep] reopens the next
    one. The click on a step of the progress bar is that navigation, its
    own access check adding nothing. *)
Theorem navigation_closes_later_steps
    (this : ConfigurationStateService) (k step : Z) (d : JSValue) :
  App.onStepClick k this = navigateToStep k this
  /\ (k <= currentStep (getCurrentConfiguration this) ->
      isStepAccessible step (navigateToStep k this) = (step <=? k)
      /\ isStepAccessible step (updateStep1 d (navigateToStep k this))
         = (step <=? Z.max k 2)
      /\ isStepAccessible step (updateStep2 d (navigateToStep k this))
         = (step <=? Z.max k 3)
      /\ isStepAccessible step (updateStep3 d (navigateToStep k this))
         = (step <=? Z.max k 4)).
Proof.
  split.
  - unfold App.onStepClick, isStepAccessible, navigateToStep.
    destruct (k <=? currentStep (getCurrentConfiguration this)); reflexivity.
  - intros Hk. unfold isStepAccessible. service_unfold.
    rewrite !getCurrentConfiguration_updateConfiguration. cbn [currentStep].
    rewrite navigateToStep_currentStep.
    apply Z.leb_le in Hk. rewrite Hk. repeat split.
Qed.

Lemma navigateToStep_payloads (k : Z) (this : ConfigurationStateService) :
  step1 (getCurrentConfiguration (navigateToStep k this))
    = step1 (getCurrentConfiguration this)
  /\ step2 (getCurrentConfiguration (navigateToStep k this))
     = step2 (getCurrentConfiguration this)
  /\ step3 (getCurrentConfiguration (navigateToStep k this))
     = step3 (getCurrentConfiguration this)
  /\ isComplete (getCurrentConfiguration (navigateToStep k this))
     = isComplete (getCurrentConfiguration this)
  /\ lastGeneratedHash (getCurrentConfiguration (navigateToStep k this))
     = lastGeneratedHash (getCurrentConfiguration this).
Proof.
  unfold navigateToStep.
  destruct (k <=? currentStep (getCurrentConfiguration this)); repeat split.
Qed.

(** ** Leaving step 1 with [Next] *)

(** X8. [onNext] of step 1 does nothing while the form is incomplete. With
    a complete form both counts are selected, and it saves exactly the
    four selections, each under its own name, with the racks computed
    from the two counts; it lands on step 2 whatever [currentStep] was:
    coming back to step 1 from a later step and pressing [Next] keeps the
    payloads of steps 2 and 3 but closes step 3 again. *)
Theorem step1_onNext_lands_on_step_2
    (form : Step1.Step1SystemTypeComponent) (this : ConfigurationStateService) :
  (Step1.isFormValid form = false -> Step1.onNext form this = this)
  /\ (Step1.isFormValid form = true ->
      let old := getCurrentConfiguration this in
      let new := getCurrentConfiguration (Step1.onNext form this) in
      exists nodes nodesPerRack : number,
        Step1.selectedNodes form = Some nodes
        /\ Step1.selectedNodesPerRack form = Some nodesPerRack
        /\ step1 new
           = JObj [ ("systemType", Step1.selectedSystemType form);
                    ("deploymentType", Step1.selectedDeploymentType form);
                    ("selectedNodes", JNum nodes);
                    ("nodesPerRack", JNum nodesPerRack);
                    ("totalRacks", JNum (Math_ceil (nodes / nodesPerRack))) ]
        /\ currentStep new = 2
        /\ isStepAccessible 3 (Step1.onNext form this) = false
        /\ step2 new = step2 old /\ step3 new = step3 old
        /\ isComplete new = false
        /\ hasConfigurationChanged (Step1.onNext form this) = true).
Proof.
  split; intros Hvalid; unfold Step1.onNext; rewrite Hvalid; [reflexivity|].
  cbv zeta. unfold isStepAccessible, hasConfigurationChanged.
  unfold Step1.isFormValid in Hvalid.
  apply andb_prop in Hvalid as [Hvalid Hper]. apply andb_prop in Hvalid as [_ Hnodes].
  unfold Step1.calculateTotalRacks.
  destruct (Step1.selectedNodes form) as [nodes|]; [|discriminate Hnodes].
  destruct (Step1.selectedNodesPerRack form) as [nodesPerRack|]; [|discriminate Hper].
  cbn [Step1.truthy] in Hnodes, Hper. rewrite Hnodes, Hper. cbn [andb Step1.to_value].
  exists nodes, nodesPerRack.
  destruct (navigateToStep_payloads 2
              (updateStep1
                 (JObj
                    [("systemType", Step1.selectedSystemType form);
                     ("deploymentType", Step1.selectedDeploymentType form);
                     ("selectedNodes", JNum nodes);
                     ("nodesPerRack", JNum nodesPerRack);
                     ("totalRacks", JNum (Math_ceil (nodes / nodesPerRack)))])
                 this))
    as (H1 & H2 & H3 & Hc & Hh).
  rewrite H1, H2, H3, Hc, Hh, navigateToStep_currentStep.
  unfold updateStep1. rewrite getCurrentConfiguration_updateConfiguration.
  cbn [step1 step2 step3 currentStep isComplete lastGeneratedHash].
  destruct (Z.leb_spec 2 (Z.max (currentStep (getCurrentConfiguration this)) 2));
    [|lia].
  repeat split.
Qed.

(** ** Choosing a system type or a deployment type *)


(** ** The power estimate: guards and failures *)

Lemma truthy_not_nullish (v : JSValue) : ToBoolean v = true -> is_nullish v = false.
Proof. destruct v; try reflexivity; discriminate. Qed.

(** What [calculatePowerConsumption] does, case by case. *)
Lemma calculatePowerConsumption_cases
    (builtins : Builtins)
    (configService : ConfigurationStateService)
    (this : Step2.Step2PowerConfigComponent) :
  Step2.calculatePowerConsumption builtins configService this =
    match Step2.selectedPowerConfiguration this, Step2.selectedRegion this,
          Step2.config this with
    | Some powerConfig, Some region, Some cfg =>
        let step1Data := step1 (getCurrentConfiguration configService) in
        let assigned := {|
          Step2.config := Step2.config this;
          Step2.selectedPowerConfiguration := Step2.selectedPowerConfiguration this;
          Step2.selectedRegion := Step2.selectedRegion this;
          Step2.showSummary := Step2.showSummary this;
          Step2.calculatedEfficiency := Step2.efficiency powerConfig;
          Step2.estimatedPowerConsumption := Step2.estimatedPowerConsumption this |} in
        if negb (ToBoolean step1Data) then (OK tt, this)
        else if is_nullish (prop step1Data "deploymentType")
                || is_nullish (prop step1Data "selectedNodes")
        then (Throw TypeError, assigned)
        else
          match Step2.index_or builtins
                  (GetFrom (Step2.baseConsumption (Step2.powerCalculation cfg))
                           (ToString (prop (prop step1Data "deploymentType") "id")))
                  (ToString (prop step1Data "selectedNodes")) 1000 with
          | Throw e => (Throw e, assigned)
          | OK basePower =>
              (OK tt,
               {| Step2.config := Step2.config this;
                  Step2.selectedPowerConfiguration :=
                    Step2.selectedPowerConfiguration this;
                  Step2.selectedRegion := Step2.selectedRegion this;
                  Step2.showSummary := Step2.showSummary this;
                  Step2.calculatedEfficiency := Step2.efficiency powerConfig;
                  Step2.estimatedPowerConsumption :=
                    (Math_round
                       (basePower
                        * factor_or
                            (GetFrom
                               (Step2.efficiencyMultipliers (Step2.powerCalculation cfg))
                               (Step2.id powerConfig))
                            1
                        * Step2.powerMultiplier region * 10) / 10)%float |})
          end
    | _, _, _ => (OK tt, this)
    end.
Proof.
  unfold Step2.calculatePowerConsumption.
  unfold mbind, mret, Step2.Method_bind, Step2.Method_ret, Step2.getThis.
  destruct (Step2.selectedPowerConfiguration this) as [powerConfig|] eqn:Hpc;
    [|reflexivity].
  destruct (Step2.selectedRegion this) as [region|] eqn:Hrg; [|reflexivity].
  destruct (Step2.config this) as [cfg|] eqn:Hcfg; [|reflexivity].
  cbv zeta.
  destruct (ToBoolean (step1 (getCurrentConfiguration configService))) eqn:Ht;
    cbn [negb]; [|reflexivity].
  unfold Step2.set_calculatedEfficiency, Step2.lift, Get, Step2.toString.
  rewrite (truthy_not_nullish _ Ht).
  destruct (is_nullish (prop (step1 (getCurrentConfiguration configService))
                          "deploymentType")); cbn [orb];
    [rewrite Hpc, Hrg, Hcfg; reflexivity|].
  destruct (is_nullish (prop (step1 (getCurrentConfiguration configService))
                          "selectedNodes")); cbn [orb];
    [rewrite Hpc, Hrg, Hcfg; reflexivity|].
  destruct (Step2.index_or builtins _ _ _) as [basePower|e];
    unfold Step2.set_estimatedPowerConsumption;
    cbn [Step2.config Step2.selectedPowerConfiguration Step2.selectedRegion
         Step2.showSummary Step2.calculatedEfficiency Step2.estimatedPowerConsumption];
    rewrite Hpc, Hrg, Hcfg; reflexivity.
Qed.

(** Reading the node count off what the deployment type id found raises
    exactly in the cases that [lookupFails] lists. *)
Lemma index_or_raises (builtins : Builtins) (step1Data : JSValue)
    (cfg : Step2.Step2Config) :
  is_nullish (prop step1Data "deploymentType")
  || is_nullish (prop step1Data "selectedNodes") = false ->
  match Step2.index_or builtins
          (GetFrom (Step2.baseConsumption (Step2.powerCalculation cfg))
                   (ToString (prop (prop step1Data "deploymentType") "id")))
          (ToString (prop step1Data "selectedNodes")) 1000 with
  | Throw e => e = TypeError /\ Invariant.lookupFails builtins step1Data cfg = true
  | OK _ => Invariant.lookupFails builtins step1Data cfg = false
  end.
Proof.
  intros Hpresent. unfold Invariant.lookupFails. rewrite Hpresent. cbn [orb].
  unfold Step2.index_or.
  destruct (GetFrom _ _) as [table | member |]; [reflexivity | | split; reflexivity].
  unfold mbind, mret, Result_bind, Result_ret.
  destruct (builtins member _) as [entry | []]; [reflexivity | split; reflexivity].
Qed.

(** X10. [calculatePowerConsumption] returns without touching the
    component, and without raising, when the power configuration, the
    region, the catalog or the payload of step 1 is missing: the efficiency
    and the estimate shown are then the earlier ones. [updateSummary] shows
    the summary exactly when both selections are made, also when the
    computation it starts raises. *)
Theorem power_summary_guards
    (builtins : Builtins)
    (configService : ConfigurationStateService)
    (this : Step2.Step2PowerConfigComponent) :
  (Step2.selectedPowerConfiguration this = None
   \/ Step2.selectedRegion this = None
   \/ Step2.config this = None
   \/ ToBoolean (step1 (getCurrentConfiguration configService)) = false ->
   Step2.calculatePowerConsumption builtins configService this = (OK tt, this))
  /\ Step2.showSummary (snd (Step2.updateSummary builtins configService this))
     = match Step2.selectedPowerConfiguration this, Step2.selectedRegion this with
       | Some _, Some _ => true
       | _, _ => false
       end
  /\ (Step2.selectedPowerConfiguration this = None
      \/ Step2.selectedRegion this = None ->
      fst (Step2.updateSummary builtins configService this) = OK tt
      /\ Step2.estimatedPowerConsumption
           (snd (Step2.updateSummary builtins configService this))
         = Step2.estimatedPowerConsumption this
      /\ Step2.calculatedEfficiency
           (snd (Step2.updateSummary builtins configService this))
         = Step2.calculatedEfficiency this).
Proof.
  split; [|split].
  - rewrite calculatePowerConsumption_cases.
    destruct (Step2.selectedPowerConfiguration this) as [powerConfig|];
      [|reflexivity].
    destruct (Step2.selectedRegion this) as [region|]; [|reflexivity].
    destruct (Step2.config this) as [cfg|]; [|reflexivity].
    intros [H|[H|[H|H]]]; try discriminate H.
    cbv zeta. rewrite H. reflexivity.
  - unfold Step2.updateSummary.
    unfold mbind, mret, Step2.Method_bind, Step2.Method_ret, Step2.getThis.
    destruct (Step2.selectedPowerConfiguration this) as [powerConfig|] eqn:Hpc;
      [|reflexivity].
    destruct (Step2.selectedRegion this) as [region|] eqn:Hrg; [|reflexivity].
    unfold Step2.set_showSummary. rewrite calculatePowerConsumption_cases.
    cbn [Step2.config Step2.selectedPowerConfiguration Step2.selectedRegion
         Step2.showSummary].
    rewrite Hpc, Hrg.
    destruct (Step2.config this); [|reflexivity].
    cbv zeta.
    destruct (negb (ToBoolean (step1 (getCurrentConfiguration configService))));
      [reflexivity|].
    destruct (is_nullish _ || is_nullish _); [reflexivity|].
    destruct (Step2.index_or _ _ _ _); reflexivity.
  - unfold Step2.updateSummary.
    unfold mbind, mret, Step2.Method_bind, Step2.Method_ret, Step2.getThis.
    intros [H|H]; rewrite H;
      [|destruct (Step2.selectedPowerConfiguration this)]; repeat split.
Qed.

(** X11. Past its guards (both selections made, catalog loaded, step 1
    saved), [calculatePowerConsumption] raises a [TypeError] exactly when
    the deployment type or the node count of step 1 is [undefined] or
    [null], or the deployment type id finds nothing in the base table, or
    it finds a member of [Object.prototype] on which the engine raises
    when the node count is read. It has then already assigned the
    efficiency, and leaves the estimate and the summary flag as they
    were; otherwise it returns normally. In particular it does not raise
    for an unlisted id that names a member of [Object.prototype] when
    that read finds nothing: the base is then the default 1000. *)
Theorem power_estimate_fails_exactly_when
    (builtins : Builtins)
    (configService : ConfigurationStateService)
    (this : Step2.Step2PowerConfigComponent)
    (powerConfig : Step2.PowerConfiguration) (region : Step2.Region)
    (cfg : Step2.Step2Config) :
  Step2.selectedPowerConfiguration this = Some powerConfig ->
  Step2.selectedRegion this = Some region ->
  Step2.config this = Some cfg ->
  ToBoolean (step1 (getCurrentConfiguration configService)) = true ->
  let step1Data := step1 (getCurrentConfiguration configService) in
  let deploymentType := ToString (prop (prop step1Data "deploymentType") "id") in
  let nodeCount := ToString (prop step1Data "selectedNodes") in
  let outcome := Step2.calculatePowerConsumption builtins configService this in
  (Invariant.lookupFails builtins step1Data cfg = true ->
   fst outcome = Throw TypeError
   /\ Step2.calculatedEfficiency (snd outcome) = Step2.efficiency powerConfig
   /\ Step2.estimatedPowerConsumption (snd outcome)
      = Step2.estimatedPowerConsumption this
   /\ Step2.showSummary (snd outcome) = Step2.showSummary this)
  /\ (Invariant.lookupFails builtins step1Data cfg = false ->
      fst outcome = OK tt
      /\ Step2.calculatedEfficiency (snd outcome) = Step2.efficiency powerConfig)
  /\ (is_nullish (prop step1Data "deploymentType") = false ->
      is_nullish (prop step1Data "selectedNodes") = false ->
      Step2.baseConsumption (Step2.powerCalculation cfg) !! deploymentType = None ->
      inherited deploymentType = true ->
      builtins deploymentType nodeCount = OK None ->
      fst outcome = OK tt
      /\ Step2.estimatedPowerConsumption (snd outcome)
         = (Math_round
              (1000
               * factor_or
                   (GetFrom (Step2.efficiencyMultipliers (Step2.powerCalculation cfg))
                            (Step2.id powerConfig)) 1
               * Step2.powerMultiplier region * 10) / 10)%float).
Proof.
  intros Hpc Hrg Hcfg Ht. cbv zeta.
  rewrite calculatePowerConsumption_cases. rewrite Hpc, Hrg, Hcfg. cbv zeta.
  rewrite Ht. cbn [negb].
  split; [|split].
  - intros Hf.
    destruct (is_nullish _ || is_nullish _) eqn:Hpresent; [repeat split|].
    pose proof (index_or_raises builtins _ cfg Hpresent) as Hcase.
    destruct (Step2.index_or _ _ _ _) as [basePower|e].
    + rewrite Hcase in Hf. discriminate Hf.
    + destruct Hcase as [-> _]. repeat split.
  - intros Hf.
    destruct (is_nullish _ || is_nullish _) eqn:Hpresent.
    + unfold Invariant.lookupFails in Hf. rewrite Hpresent in Hf. discriminate Hf.
    + pose proof (index_or_raises builtins _ cfg Hpresent) as Hcase.
      destruct (Step2.index_or _ _ _ _) as [basePower|e]; [repeat split|].
      destruct Hcase as [_ Hcase]. rewrite Hcase in Hf. discriminate Hf.
  - intros Hdt Hsn Hnone Hinh Hread. rewrite Hdt, Hsn. cbn [orb].
    assert (GetFrom (Step2.baseConsumption (Step2.powerCalculation cfg))
              (ToString (prop (prop (step1 (getCurrentConfiguration configService))
                                 "deploymentType") "id"))
            = Inherited (ToString (prop (prop (step1 (getCurrentConfiguration
                                                        configService))
                                            "deploymentType") "id"))) as ->.
    { unfold GetFrom. rewrite Hnone, Hinh. reflexivity. }
    unfold Step2.index_or. rewrite Hread. repeat split.
Qed.

(** ** Step 3: protocol, vendor, support *)

(** X12. Choosing a storage protocol clears the vendor, whatever was
    selected before: the form of step 3 is then incomplete, the summary
    hidden and [Next] without effect until a vendor is chosen again. The
    vendors on offer become those the catalog lists under the protocol
    id; under an id it does not list there are none, unless the id names
    a member of [Object.prototype], which is then what is on offer. They
    stay as they were while the catalog is not loaded (or the protocol is
    falsy). *)
Theorem protocol_choice_clears_vendor
    (protocol : JSValue) (this : Step3.Step3StorageConfigComponent)
    (configService : ConfigurationStateService) :
  let after := Step3.onStorageProtocolSelect protocol this in
  Step3.selectedStorageProtocol after = protocol
  /\ Step3.selectedStorageVendor after = JNull
  /\ Step3.selectedSupportOption after = Step3.selectedSupportOption this
  /\ Step3.isFormValid after = false
  /\ Step3.showSummary after = false
  /\ Step3.onNext after configService = configService
  /\ Step3.availableVendors after
     = match Step3.config this with
       | Some cfg =>
           if ToBoolean protocol
           then
             let key := ToString (prop protocol "id") in
             match Step3.storageVendors cfg !! key with
             | Some vendors => Listed vendors
             | None => if inherited key then Builtin key else Listed []
             end
           else Step3.availableVendors this
       | None => Step3.availableVendors this
       end.
Proof.
  cbv zeta.
  unfold Step3.onStorageProtocolSelect, Step3.updateAvailableVendors,
    Step3.updateSummary, Step3.onNext, Step3.isFormValid, options_or_none, GetFrom.
  cbn [Step3.config Step3.selectedStorageProtocol].
  destruct (Step3.config this) as [cfg|]; [destruct (ToBoolean protocol) eqn:Hp|];
    cbn [Step3.config Step3.selectedStorageProtocol Step3.selectedStorageVendor
         Step3.selectedSupportOption Step3.availableVendors Step3.showSummary
         ToBoolean];
    rewrite ?Hp, ?andb_false_r; cbn [andb]; repeat split;
    try (destruct (ToBoolean protocol); reflexivity).
  destruct (Step3.storageVendors cfg !! _); [reflexivity|].
  destruct (inherited _); reflexivity.
Qed.

(** X13. Saving step 3 and restoring it is a round trip: after [onNext]
    with a complete form, [loadExistingSelections] in any instance of the
    component brings back the three selections as they were saved, finds
    the form complete and shows the summary; the vendors on offer are
    looked up again under the id of the restored protocol (none under an
    unlisted id, unless it names a member of [Object.prototype], which is
    then what is on offer). The save lands on step 4. *)
Theorem step3_save_then_restore
    (form other : Step3.Step3StorageConfigComponent)
    (configService : ConfigurationStateService) :
  Step3.isFormValid form = true ->
  let saved := Step3.onNext form configService in
  let restored := Step3.loadExistingSelections saved other in
  currentStep (getCurrentConfiguration saved) = 4
  /\ Step3.selectedStorageProtocol restored = Step3.selectedStorageProtocol form
  /\ Step3.selectedStorageVendor restored = Step3.selectedStorageVendor form
  /\ Step3.selectedSupportOption restored = Step3.selectedSupportOption form
  /\ Step3.isFormValid restored = true
  /\ Step3.showSummary restored = true
  /\ Step3.availableVendors restored
     = match Step3.config other with
       | Some cfg =>
           let key := ToString (prop (Step3.selectedStorageProtocol form) "id") in
           match Step3.storageVendors cfg !! key with
           | Some vendors => Listed vendors
           | None => if inherited key then Builtin key else Listed []
           end
       | None => Step3.availableVendors other
       end.
Proof.
  intros Hvalid. cbv zeta.
  unfold Step3.onNext. rewrite Hvalid.
  unfold Step3.loadExistingSelections.
  destruct (navigateToStep_payloads 4
              (updateStep3
                 (JObj [("storageProtocol", Step3.selectedStorageProtocol form);
                        ("storageVendor", Step3.selectedStorageVendor form);
                        ("supportOption", Step3.selectedSupportOption form)])
                 configService)) as (_ & _ & H3 & _).
  rewrite H3, navigateToStep_currentStep. clear H3.
  unfold updateStep3. rewrite getCurrentConfiguration_updateConfiguration.
  cbn [step3 currentStep ToBoolean prop assoc String.eqb Ascii.eqb Bool.eqb
       Step3.selectedStorageProtocol].
  unfold Step3.isFormValid in *.
  apply andb_prop in Hvalid as [Hpv Hs]. apply andb_prop in Hpv as [Hp Hv].
  rewrite Hp.
  unfold Step3.updateSummary, Step3.updateAvailableVendors, options_or_none, GetFrom.
  cbn [Step3.config Step3.selectedStorageProtocol].
  rewrite Hp.
  destruct (Z.leb_spec 4 (Z.max (currentStep (getCurrentConfiguration configService)) 4));
    [|lia].
  destruct (Step3.config other) as [cfg|];
    cbn [Step3.config Step3.selectedStorageProtocol Step3.selectedStorageVendor
         Step3.selectedSupportOption Step3.availableVendors Step3.showSummary];
    rewrite Hp, Hv, Hs; repeat split.
  destruct (Step3.storageVendors cfg !! _); [reflexivity|].
  destruct (inherited _); reflexivity.
Qed.

Lemma find_by_id_found (supportId : string) (options : list JSValue) (found : JSValue) :
  Step3.find_by_id supportId options = OK found ->
  found = JUndefined
  \/ (In found options /\ prop found "id" = JStr supportId /\ ToBoolean found = true).
Proof.
  induction options as [|s options IH]; cbn [Step3.find_by_id].
  - intros H. left. congruence.
  - unfold Get. destruct (is_nullish s) eqn:Hn; [discriminate|].
    destruct (Step3.strictly_equals_string (prop s "id") supportId) eqn:Heq.
    + intros H. injection H as <-. right. split; [left; reflexivity|]. split.
      * unfold Step3.strictly_equals_string in Heq.
        destruct (prop s "id"); try discriminate.
        apply String.eqb_eq in Heq. now subst.
      * destruct s; try reflexivity; try discriminate Hn; discriminate Heq.
    + intros H. destruct (IH H) as [->|(Hin & Hid & Ht)]; [left; reflexivity|].
      right. split; [right; exact Hin|]. split; assumption.
Qed.

Lemma find_by_id_absent (supportId : string) (options : list JSValue) :
  forallb (fun s => negb (is_nullish s)
                    && negb (Step3.strictly_equals_string (prop s "id") supportId))
    options = true ->
  Step3.find_by_id supportId options = OK JUndefined.
Proof.
  induction options as [|s options IH]; cbn [Step3.find_by_id forallb];
    [reflexivity|].
  intros H. apply andb_prop in H as [Hs Hrest].
  apply andb_prop in Hs as [Hn Hne]. apply negb_true_iff in Hn, Hne.
  unfold Get. rewrite Hn, Hne. apply IH, Hrest.
Qed.

(** X14. When [onSupportOptionSelect] returns, the support option selected
    is [null] or an option of the catalog that carries the id picked; the
    protocol and the vendor are as before and the
    summary is shown exactly when the form is complete. With the catalog
    not loaded, or no option carrying the id, the selection is [null] and
    the form is incomplete. *)
Theorem support_option_is_looked_up_by_id
    (supportId : string) (this after : Step3.Step3StorageConfigComponent) :
  (Step3.onSupportOptionSelect supportId this = OK after ->
   (Step3.selectedSupportOption after = JNull
    \/ exists cfg, Step3.config this = Some cfg
         /\ In (Step3.selectedSupportOption after) (Step3.supportOptions cfg)
         /\ prop (Step3.selectedSupportOption after) "id" = JStr supportId)
   /\ Step3.selectedStorageProtocol after = Step3.selectedStorageProtocol this
   /\ Step3.selectedStorageVendor after = Step3.selectedStorageVendor this
   /\ Step3.showSummary after = Step3.isFormValid after)
  /\ (match Step3.config this with
      | Some cfg =>
          forallb (fun s => negb (is_nullish s)
                            && negb (Step3.strictly_equals_string (prop s "id") supportId))
            (Step3.supportOptions cfg) = true
      | None => True
      end ->
      exists cleared, Step3.onSupportOptionSelect supportId this = OK cleared
        /\ Step3.selectedSupportOption cleared = JNull
        /\ Step3.isFormValid cleared = false).
Proof.
  unfold Step3.onSupportOptionSelect, mbind, mret, Result_bind, Result_ret.
  split.
  - destruct (Step3.config this) as [cfg|] eqn:Hcfg.
    + destruct (Step3.find_by_id supportId (Step3.supportOptions cfg)) as [found|e]
        eqn:Hfind; [|discriminate].
      intros H. injection H as <-.
      unfold Step3.updateSummary, Step3.isFormValid.
      cbn [Step3.selectedSupportOption Step3.selectedStorageProtocol
           Step3.selectedStorageVendor Step3.showSummary].
      split; [|repeat split].
      destruct (find_by_id_found _ _ _ Hfind) as [->|(Hin & Hid & Ht)].
      * left. reflexivity.
      * right. exists cfg. unfold or_else. rewrite Ht. repeat split; assumption.
    + intros H. injection H as <-.
      unfold Step3.updateSummary, Step3.isFormValid.
      cbn [Step3.selectedSupportOption Step3.selectedStorageProtocol
           Step3.selectedStorageVendor Step3.showSummary].
      split; [left; reflexivity|repeat split].
  - destruct (Step3.config this) as [cfg|]; intros H;
      [rewrite (find_by_id_absent _ _ H)|];
      eexists; (split; [reflexivity|]);
      unfold Step3.updateSummary, Step3.isFormValid;
      cbn [Step3.selectedSupportOption Step3.selectedStorageProtocol
           Step3.selectedStorageVendor or_else ToBoolean];
      rewrite andb_false_r; split; reflexivity.
Qed.

(** ** The progress bar and the review page *)

(** X15. A step of the progress bar counts as completed exactly when its
    payload is saved (truthy); no step outside 1..3 ever does, the review
    step 4 included, even after [completeConfiguration]. Completion is
    unaffected by navigation and lost on reset, and the review page finds
    the configuration complete exactly when steps 1, 2 and 3 are all
    completed. *)
Theorem step_completion_follows_payloads
    (this : ConfigurationStateService) (k step : Z) (d : JSValue)
    (page : Step4.Step4ReviewGenerateComponent) :
  (k < 1 \/ 3 < k -> App.isStepCompleted k (completeConfiguration this) = false)
  /\ App.isStepCompleted 1 (updateStep1 d this) = ToBoolean d
  /\ App.isStepCompleted 2 (updateStep2 d this) = ToBoolean d
  /\ App.isStepCompleted 3 (updateStep3 d this) = ToBoolean d
  /\ App.isStepCompleted k (navigateToStep step this) = App.isStepCompleted k this
  /\ App.isStepCompleted k (completeConfiguration this) = App.isStepCompleted k this
  /\ App.isStepCompleted k (resetConfiguration this) = false
  /\ Step4.isConfigurationComplete (Step4.loadConfiguration this page)
     = App.isStepCompleted 1 this && App.isStepCompleted 2 this
       && App.isStepCompleted 3 this.
Proof.
  unfold App.isStepCompleted. service_unfold.
  rewrite !getCurrentConfiguration_updateConfiguration.
  destruct (navigateToStep_payloads step this) as (H1 & H2 & H3 & _).
  rewrite H1, H2, H3.
  cbn [step1 step2 step3 ToBoolean Z.eqb].
  repeat split.
  - intros [H|H]; destruct (Z.eqb_spec k 1); try lia;
      destruct (Z.eqb_spec k 2); try lia; destruct (Z.eqb_spec k 3); try lia;
      reflexivity.
  - destruct (k =? 1), (k =? 2), (k =? 3); reflexivity.
Qed.

Lemma markAsGenerated_unchanged (this : ConfigurationStateService) :
  hasConfigurationChanged (markAsGenerated this) = false.
Proof.
  unfold markAsGenerated.
  rewrite (hasConfigurationChanged_reads
             {| step1 := step1 (getCurrentConfiguration this);
                step2 := step2 (getCurrentConfiguration this);
                step3 := step3 (getCurrentConfiguration this);
                currentStep := 0;
                isComplete := true;
                lastGeneratedHash := Some (calculateConfigHash this) |})
    by reflexivity.
  cbn [lastGeneratedHash].
  unfold calculateConfigHash at 1. rewrite Z_toString_nonempty.
  unfold calculateConfigHash, configString. cbn [step1 step2 step3].
  rewrite String.eqb_refl. reflexivity.
Qed.

(** X16. [onGenerateConfiguration] does nothing while the review page
    finds the configuration incomplete. Otherwise, whether or not the save
    to the backend succeeds, it leaves the configuration complete and
    generated: [isComplete] is set, [hasConfigurationChanged] is false,
    the page shows that state, the payloads and [currentStep] are as
    before, and in a browser the stored snapshot is the current state. *)
Theorem generation_completes_and_marks
    (page : Step4.Step4ReviewGenerateComponent)
    (this : ConfigurationStateService) :
  let outcome := Step4.onGenerateConfiguration page this in
  (Step4.isConfigurationComplete page = false -> outcome = (page, this))
  /\ (Step4.isConfigurationComplete page = true ->
      let old := getCurrentConfiguration this in
      let new := getCurrentConfiguration (snd outcome) in
      isComplete new = true
      /\ hasConfigurationChanged (snd outcome) = false
      /\ Step4.configuration (fst outcome) = Some new
      /\ Step4.hasConfigChanged (fst outcome) = false
      /\ Step4.isGenerating (fst outcome) = false
      /\ step1 new = step1 old /\ step2 new = step2 old /\ step3 new = step3 old
      /\ currentStep new = currentStep old
      /\ (forall store, localStorage this = Some store ->
          getItem storageKey (snd outcome) = Some (JSON_stringify (toJS new)))).
Proof.
  cbv zeta. unfold Step4.onGenerateConfiguration.
  split; intros H; rewrite H; cbn [negb]; [reflexivity|].
  cbn [fst snd Step4.loadConfiguration Step4.configuration Step4.hasConfigChanged
       Step4.isGenerating].
  rewrite markAsGenerated_unchanged.
  repeat split.
  intros store Hstore. unfold markAsGenerated.
  rewrite getCurrentConfiguration_updateConfiguration.
  destruct (perform_keeps_store CompleteConfiguration this (ex_intro _ store Hstore))
    as [store' Hstore'].
  apply (getItem_updateConfiguration _ _ store' Hstore').
Qed.

(** ** What the export reads *)

(** X17. The exported configuration is read off the three payloads and
    the clock alone: navigating, completing and marking as generated
    leave it as it is. What step 3 saved with [Next] is what is exported:
    the names of the protocol, the vendor and the support option selected,
    the empty string for one that has no name. *)
Theorem export_reads_payloads_only
    (now k : Z) (this : ConfigurationStateService)
    (form : Step3.Step3StorageConfigComponent) :
  getFinalConfiguration now (navigateToStep k this) = getFinalConfiguration now this
  /\ getFinalConfiguration now (completeConfiguration this)
     = getFinalConfiguration now this
  /\ getFinalConfiguration now (markAsGenerated this) = getFinalConfiguration now this
  /\ (Step3.isFormValid form = true ->
      storage (getFinalConfiguration now (Step3.onNext form this))
      = {| protocol :=
             Spec.projected (prop (Step3.selectedStorageProtocol form) "name") (JStr "");
           vendor :=
             Spec.projected (prop (Step3.selectedStorageVendor form) "name") (JStr "");
           support :=
             Spec.projected (prop (Step3.selectedSupportOption form) "name") (JStr "")
        |}
      /\ system (getFinalConfiguration now (Step3.onNext form this))
         = system (getFinalConfiguration now this)
      /\ power (getFinalConfiguration now (Step3.onNext form this))
         = power (getFinalConfiguration now this)).
Proof.
  split; [|split; [|split]].
  - unfold getFinalConfiguration.
    destruct (navigateToStep_payloads k this) as (H1 & H2 & H3 & _).
    now rewrite H1, H2, H3.
  - reflexivity.
  - reflexivity.
  - intros Hvalid. unfold Step3.onNext. rewrite Hvalid.
    unfold getFinalConfiguration.
    destruct (navigateToStep_payloads 4
                (updateStep3
                   (JObj [("storageProtocol", Step3.selectedStorageProtocol form);
                          ("storageVendor", Step3.selectedStorageVendor form);
                          ("supportOption", Step3.selectedSupportOption form)])
                   this)) as (H1 & H2 & H3 & _).
    rewrite H1, H2, H3.
    unfold updateStep3. rewrite getCurrentConfiguration_updateConfiguration.
    cbn [step1 step2 step3 system power storage].
    unfold selectedName, or_else, Spec.projected. rewrite !OptGet_prop.
    repeat split.
Qed.

(** ** Instances of the further properties on the sample data *)

Lemma hash_comparison_never_differs_witness :
  Invariant.hashIsCurrent Sample.freshService
  /\ hasConfigurationChanged
       (run [UpdateStep1 Sample.step1Data; MarkAsGenerated; NavigateToStep 1]
          Sample.freshService) = false.
Proof.
  split; [exact I|].
  rewrite (proj2 (hash_comparison_never_differs
                    [UpdateStep1 Sample.step1Data; MarkAsGenerated; NavigateToStep 1]
                    Sample.freshService I)).
  by_evaluation.
Defined.

Lemma currentStep_stays_in_range_witness :
  1 <= currentStep (getCurrentConfiguration Sample.freshService) <= 4
  /\ forallb Invariant.navigatesFromOne
       [UpdateStep1 Sample.step1Data; NavigateToStep 1; UpdateStep3 Sample.step3Data]
     = true
  /\ 1 <= currentStep (getCurrentConfiguration
            (run [UpdateStep1 Sample.step1Data; NavigateToStep 1;
                  UpdateStep3 Sample.step3Data] Sample.freshService)) <= 4.
Proof.
  assert (H : 1 <= currentStep (getCurrentConfiguration Sample.freshService) <= 4)
    by (vm_compute; split; discriminate).
  split; [exact H|]. split; [reflexivity|].
  apply (currentStep_stays_in_range
           [UpdateStep1 Sample.step1Data; NavigateToStep 1; UpdateStep3 Sample.step3Data]
           Sample.freshService H).
  reflexivity.
Defined.

Lemma snapshot_differs_in_step_only_witness :
  localStorage Sample.freshService = Some ∅
  /\ isNavigation (UpdateStep1 Sample.step1Data) = false
  /\ Invariant.snapshotAhead
       (run [UpdateStep1 Sample.step1Data; NavigateToStep 1] Sample.freshService).
Proof.
  split; [reflexivity|]. split; [reflexivity|].
  apply (snapshot_differs_in_step_only (UpdateStep1 Sample.step1Data)
           [NavigateToStep 1] Sample.freshService ∅); reflexivity.
Defined.

Lemma payload_kept_without_write_witness :
  forallb (fun op => negb (Invariant.writes 1 op))
    [UpdateStep2 Sample2.step2Data; NavigateToStep 1; MarkAsGenerated] = true
  /\ Invariant.payload 1 (getCurrentConfiguration
       (run [UpdateStep2 Sample2.step2Data; NavigateToStep 1; MarkAsGenerated]
          Sample.afterStep1)) = Sample.step1Data.
Proof.
  split; [reflexivity|].
  rewrite (payload_kept_without_write 1
             [UpdateStep2 Sample2.step2Data; NavigateToStep 1; MarkAsGenerated]
             Sample.afterStep1 eq_refl).
  by_evaluation.
Defined.

Lemma navigation_closes_later_steps_witness :
  1 <= currentStep (getCurrentConfiguration Sample2.allSteps)
  /\ isStepAccessible 3 Sample2.allSteps = true
  /\ isStepAccessible 3 (navigateToStep 1 Sample2.allSteps) = false
  /\ isStepAccessible 3 (updateStep1 Sample.step1Data (navigateToStep 1 Sample2.allSteps))
     = false.
Proof.
  assert (H : 1 <= currentStep (getCurrentConfiguration Sample2.allSteps))
    by (vm_compute; discriminate).
  split; [exact H|]. split; [by_evaluation|].
  destruct (proj2 (navigation_closes_later_steps Sample2.allSteps 1 3 Sample.step1Data) H)
    as (Hnav & Hupdate & _).
  split; [rewrite Hnav|rewrite Hupdate]; reflexivity.
Defined.

Lemma step1_onNext_lands_on_step_2_witness :
  Step1.isFormValid Sample.step1Form = true
  /\ currentStep (getCurrentConfiguration Sample2.allSteps) = 4
  /\ currentStep (getCurrentConfiguration (Step1.onNext Sample.step1Form Sample2.allSteps))
     = 2
  /\ step3 (getCurrentConfiguration (Step1.onNext Sample.step1Form Sample2.allSteps))
     = step3 (getCurrentConfiguration Sample2.allSteps).
Proof.
  split; [reflexivity|]. split; [by_evaluation|].
  destruct (proj2 (step1_onNext_lands_on_step_2 Sample.step1Form Sample2.allSteps)
              eq_refl) as (nodes & nodesPerRack & _ & _ & _ & Hstep & _ & _ & H3 & _).
  split; [exact Hstep|exact H3].
Defined.


Lemma power_summary_guards_witness :
  ToBoolean (step1 (getCurrentConfiguration Sample.freshService)) = false
  /\ Step2.calculatePowerConsumption Sample.noBuiltinProperty
       Sample.freshService Sample.step2Form
     = (OK tt, Sample.step2Form).
Proof.
  split; [reflexivity|].
  apply (proj1 (power_summary_guards Sample.noBuiltinProperty
                  Sample.freshService Sample.step2Form)).
  right. right. right. reflexivity.
Defined.

Lemma power_estimate_fails_exactly_when_witness :
  Step2.selectedPowerConfiguration Sample.step2Form
    = Some {| Step2.id := "full-dc"; Step2.efficiency := 0.95%float |}
  /\ Step2.config Sample.step2Form = Some Sample.step2Config
  /\ ToBoolean (step1 (getCurrentConfiguration Sample2.unlistedService)) = true
  /\ Invariant.lookupFails Sample.noBuiltinProperty
       (step1 (getCurrentConfiguration Sample2.unlistedService))
       Sample.step2Config = true
  /\ fst (Step2.calculatePowerConsumption Sample.noBuiltinProperty
            Sample2.unlistedService Sample.step2Form)
     = Throw TypeError
  /\ Step2.calculatedEfficiency
       (snd (Step2.calculatePowerConsumption Sample.noBuiltinProperty
               Sample2.unlistedService Sample.step2Form))
     = 0.95%float.
Proof.
  split; [reflexivity|]. split; [reflexivity|]. split; [reflexivity|].
  assert (Hfails : Invariant.lookupFails Sample.noBuiltinProperty
                     (step1 (getCurrentConfiguration Sample2.unlistedService))
                     Sample.step2Config = true) by by_evaluation.
  split; [exact Hfails|].
  destruct (proj1 (power_estimate_fails_exactly_when Sample.noBuiltinProperty
                     Sample2.unlistedService
                     Sample.step2Form
                     {| Step2.id := "full-dc"; Step2.efficiency := 0.95%float |}
                     {| Step2.powerMultiplier := 1.1%float |}
                     Sample.step2Config eq_refl eq_refl eq_refl eq_refl) Hfails)
    as (Hthrow & Heff & _).
  split; [exact Hthrow|exact Heff].
Defined.

Lemma step3_save_then_restore_witness :
  Step3.isFormValid Sample2.step3Form = true
  /\ Step3.selectedStorageVendor
       (Step3.loadExistingSelections
          (Step3.onNext Sample2.step3Form Sample.afterStep1) Sample2.step3Loaded)
     = Sample2.wekaIO
  /\ Step3.showSummary
       (Step3.loadExistingSelections
          (Step3.onNext Sample2.step3Form Sample.afterStep1) Sample2.step3Loaded)
     = true.
Proof.
  split; [reflexivity|].
  destruct (step3_save_then_restore Sample2.step3Form Sample2.step3Loaded
              Sample.afterStep1 eq_refl) as (_ & _ & Hv & _ & _ & Hs & _).
  split; [exact Hv|exact Hs].
Defined.

Lemma support_option_is_looked_up_by_id_witness :
  Step3.onSupportOptionSelect "5-years" Sample2.step3Loaded
    = OK Sample2.step3WithSupport
  /\ Step3.selectedSupportOption Sample2.step3WithSupport = Sample2.fiveYears
  /\ Step3.showSummary Sample2.step3WithSupport
     = Step3.isFormValid Sample2.step3WithSupport.
Proof.
  assert (H : Step3.onSupportOptionSelect "5-years" Sample2.step3Loaded
              = OK Sample2.step3WithSupport) by reflexivity.
  split; [exact H|]. split; [reflexivity|].
  apply (proj1 (support_option_is_looked_up_by_id "5-years" Sample2.step3Loaded
                  Sample2.step3WithSupport) H).
Defined.

Lemma step_completion_follows_payloads_witness :
  3 < 4
  /\ isComplete (getCurrentConfiguration (completeConfiguration Sample2.allSteps)) = true
  /\ App.isStepCompleted 4 (completeConfiguration Sample2.allSteps) = false.
Proof.
  assert (H : 3 < 4) by reflexivity.
  split; [exact H|]. split; [reflexivity|].
  apply (proj1 (step_completion_follows_payloads Sample2.allSteps 4 1 JNull
                  Sample2.reviewPage)).
  right. exact H.
Defined.

Lemma generation_completes_and_marks_witness :
  Step4.isConfigurationComplete Sample2.reviewPage = true
  /\ hasConfigurationChanged Sample2.allSteps = true
  /\ hasConfigurationChanged
       (snd (Step4.onGenerateConfiguration Sample2.reviewPage Sample2.allSteps)) = false
  /\ isComplete (getCurrentConfiguration
       (snd (Step4.onGenerateConfiguration Sample2.reviewPage Sample2.allSteps))) = true.
Proof.
  assert (H : Step4.isConfigurationComplete Sample2.reviewPage = true) by by_evaluation.
  split; [exact H|]. split; [by_evaluation|].
  destruct (proj2 (generation_completes_and_marks Sample2.reviewPage Sample2.allSteps) H)
    as (Hc & Hchanged & _).
  split; [exact Hchanged|exact Hc].
Defined.

Lemma export_reads_payloads_only_witness :
  Step3.isFormValid Sample2.step3Form = true
  /\ protocol (storage (getFinalConfiguration Sample.clock
                 (Step3.onNext Sample2.step3Form Sample.afterStep1)))
     = JStr "High-Speed Interconnect".
Proof.
  split; [reflexivity|].
  rewrite (proj1 (proj2 (proj2 (proj2 (export_reads_payloads_only Sample.clock 1
                    Sample.afterStep1 Sample2.step3Form))) eq_refl)).
  reflexivity.
Defined.
